(** * api-artigos: articles and users behind JWT authentication

    A shallow embedding of the request handlers of the service
    ([api/v1/endpoints/artigo.py], [api/v1/endpoints/usuario.py]), of the
    authentication helpers ([core/auth.py], [core/deps.py],
    [core/security.py]) and of the two tables ([models/]).

    - The database is an explicit value threaded through every handler:
      a handler maps a [Database] to a new [Database] and a [Result].
    - Python exceptions are the [Raise] branch of [Result]; FastAPI's
      translation of an escaping exception into a status code is
      [http_status].
    - Time is an explicit argument: a [datetime] is an instant counted in
      microseconds since the epoch, a [timedelta] a number of microseconds.
    - The keyed hash behind [jwt.encode]/[jwt.decode] and the bcrypt
      hasher behind [CRIPTO] are interfaces ([KeyedHash], [CryptContext])
      over which the handlers are generic; the logic python-jose wraps
      around the keyed hash (allowed algorithm, signature comparison,
      validation of the registered claims) is modelled as the library has
      it.
    - The storage model covers what the handlers rely on: server-generated
      primary keys, the UNIQUE constraint on [usuarios.email], the foreign
      key of [artigos.usuario_id] and the ORM cascade of
      [UsuarioModel.artigos].  Strings are ASCII strings. *)

From Stdlib Require Import ZArith List String Ascii Bool Lia DecimalString DecimalZ.
Import ListNotations.

Open Scope string_scope.
Open Scope Z_scope.

(* ===================================================================== *)
(** * Exceptions and results *)
(* ===================================================================== *)

(** The exceptions that can leave the modelled code.  [JWTError] stands for
    [jose.JWTError] and its subclasses [JWTClaimsError] and
    [ExpiredSignatureError]; the string is the message. *)
Inductive exception : Type :=
| HTTPException (status_code : Z) (detail : string)
| JWTError (msg : string)
| ValueError
| TypeError
| ValidationError
| IntegrityError
| MultipleResultsFound.

Inductive Result (A : Type) : Type :=
| Ok (a : A)
| Raise (e : exception).

Arguments Ok {A} a.
Arguments Raise {A} e.

Definition bind {A B : Type} (m : Result A) (k : A -> Result B) : Result B :=
  match m with
  | Ok a => k a
  | Raise e => Raise e
  end.

Notation "x <- m ;; k" := (bind m (fun x => k))
  (at level 61, m at next level, right associativity).

Definition HTTP_200_OK : Z := 200.
Definition HTTP_201_CREATED : Z := 201.
Definition HTTP_202_ACCEPTED : Z := 202.
Definition HTTP_400_BAD_REQUEST : Z := 400.
Definition HTTP_401_UNAUTHORIZED : Z := 401.
Definition HTTP_404_NOT_FOUND : Z := 404.
Definition HTTP_406_NOT_ACCEPTABLE : Z := 406.
Definition HTTP_500_INTERNAL_SERVER_ERROR : Z := 500.

(* ===================================================================== *)
(** * Python builtins used by the handlers *)
(* ===================================================================== *)

Module Py.

(** [str.isspace] on an ASCII character: TAB..CR, FS..US and the space. *)
Definition isspace (c : ascii) : bool :=
  let n := N_of_ascii c in
  ((9 <=? n) && (n <=? 13) || (28 <=? n) && (n <=? 32))%N.

Definition isdigit (c : ascii) : bool :=
  let n := N_of_ascii c in ((48 <=? n) && (n <=? 57))%N.

Definition digit_value (c : ascii) : Z := Z.of_N (N_of_ascii c) - 48.

Fixpoint lstrip (s : string) : string :=
  match s with
  | String c s' => if isspace c then lstrip s' else s
  | EmptyString => EmptyString
  end.

Fixpoint all_space (s : string) : bool :=
  match s with
  | String c s' => isspace c && all_space s'
  | EmptyString => true
  end.

(** The digits of a base-10 literal: at least one digit, single
    underscores only between digits, then optional trailing whitespace.
    [prev] tells whether the previous character was a digit. *)
Fixpoint digits (acc : Z) (prev : bool) (s : string) : Result Z :=
  match s with
  | EmptyString => if prev then Ok acc else Raise ValueError
  | String c s' =>
      if isdigit c then digits (10 * acc + digit_value c) true s'
      else if Ascii.eqb c "_" then
        if prev then digits acc false s' else Raise ValueError
      else if isspace c then
        if prev && all_space s' then Ok acc else Raise ValueError
      else Raise ValueError
  end.

(** [int(s)] for a [str]: surrounding whitespace is stripped, one sign is
    allowed, anything else raises [ValueError].  The interpreter's cap on
    the number of digits is not modelled. *)
Definition int (s : string) : Result Z :=
  match lstrip s with
  | String "-" s' => n <- digits 0 false s' ;; Ok (- n)
  | String "+" s' => digits 0 false s'
  | s' => digits 0 false s'
  end.

(** [str(n)] for an [int]. *)
Definition str_int (n : Z) : string := NilZero.string_of_int (Z.to_int n).

(** Truth value of a [str]: only the empty string is false. *)
Definition truthy (s : string) : bool :=
  match s with
  | EmptyString => false
  | String _ _ => true
  end.

End Py.

(** Instants and durations, in microseconds. *)
Definition datetime : Type := Z.
Definition timedelta : Type := Z.

Definition timedelta_minutes (m : Z) : timedelta := m * 60 * 1000000.

(** [calendar.timegm(d.utctimetuple())]: whole seconds since the epoch,
    the microseconds are dropped. *)
Definition timegm (d : datetime) : Z := d / 1000000.

(* ===================================================================== *)
(** * core/configs.py *)
(* ===================================================================== *)

Module settings.
Definition API_V1_STR : string := "/api/v1".
Definition JWT_SECRET : string := "w7PQnn5XdHs14ltivJ3g8r_MirZiR4jb1KEV4sVNdSw".
Definition ALGORITHM : string := "HS256".
Definition ACCESS_TOKEN_EXPIRE_MINUTES : Z := 60 * 24 * 7.
End settings.


(* ===================================================================== *)
(** * Tokens: python-jose *)
(* ===================================================================== *)

(** A claim value as it travels inside a token. *)
Inductive json : Type :=
| JStr (s : string)
| JNum (n : Z).

(** A value of the payload handed to [jwt.encode]. *)
Inductive pyval : Type :=
| VStr (s : string)
| VInt (n : Z)
| VDatetime (d : datetime).

(** A dict literal, in insertion order. *)
Fixpoint dict_get {V : Type} (k : string) (d : list (string * V)) : option V :=
  match d with
  | [] => None
  | (k', v) :: d' => if String.eqb k k' then Some v else dict_get k d'
  end.

Definition claims : Type := list (string * json).

(** A bearer token after splitting and base64url/JSON decoding: either the
    string is not a JWS carrying a JSON object, or it is one, with the
    algorithm of its header, its claims and its signature. *)
Inductive token : Type :=
| Malformed (raw : string)
| JWS (alg : string) (payload : claims) (signature : string).

(** The keyed hash under a JWS: key, algorithm and claims to signature. *)
Class KeyedHash : Type := { jws_sign : string -> string -> claims -> string }.

Module jwt.
Section Jose.
Context {K : KeyedHash}.

Definition is_time_claim (k : string) : bool :=
  String.eqb k "exp" || String.eqb k "iat" || String.eqb k "nbf".

(** [encode] turns the [datetime] of a time claim into whole seconds
    ([timegm]); a [datetime] under any other key is not serialisable. *)
Definition encode_claim (kv : string * pyval) : Result (string * json) :=
  match kv with
  | (k, VStr s) => Ok (k, JStr s)
  | (k, VInt n) => Ok (k, JNum n)
  | (k, VDatetime d) => if is_time_claim k then Ok (k, JNum (timegm d)) else Raise TypeError
  end.

Fixpoint encode_claims (payload : list (string * pyval)) : Result claims :=
  match payload with
  | [] => Ok []
  | kv :: rest => c <- encode_claim kv ;; cs <- encode_claims rest ;; Ok (c :: cs)
  end.

Definition encode (payload : list (string * pyval)) (key algorithm : string) : Result token :=
  cs <- encode_claims payload ;;
  Ok (JWS algorithm cs (jws_sign key algorithm cs)).

(** [jws.verify]: structure, allowed algorithm, signature. *)
Definition verify (tok : token) (key : string) (algorithms : list string) : Result claims :=
  match tok with
  | Malformed _ => Raise (JWTError "Error decoding token headers.")
  | JWS alg payload sig =>
      if negb (existsb (String.eqb alg) algorithms)
      then Raise (JWTError "The specified alg value is not allowed")
      else if negb (String.eqb sig (jws_sign key alg payload))
      then Raise (JWTError "Signature verification failed.")
      else Ok payload
  end.

(** [int(claims[k])] inside the validators: only [ValueError] is caught. *)
Definition claim_int (v : json) : Result Z :=
  match v with
  | JNum n => Ok n
  | JStr s => Py.int s
  end.

Definition numeric_claim (k msg : string) (cs : claims) : Result (option Z) :=
  match dict_get k cs with
  | None => Ok None
  | Some v =>
      match claim_int v with
      | Ok n => Ok (Some n)
      | Raise ValueError => Raise (JWTError msg)
      | Raise e => Raise e
      end
  end.

Definition _validate_iat (cs : claims) : Result unit :=
  _ <- numeric_claim "iat" "Issued At claim (iat) must be an integer." cs ;; Ok tt.

Definition _validate_nbf (cs : claims) (now : datetime) : Result unit :=
  o <- numeric_claim "nbf" "Not Before claim (nbf) must be an integer." cs ;;
  match o with
  | None => Ok tt
  | Some nbf => if timegm now <? nbf
                then Raise (JWTError "The token is not yet valid (nbf)")
                else Ok tt
  end.

(** [if exp < (now - leeway): raise ExpiredSignatureError], leeway 0. *)
Definition _validate_exp (cs : claims) (now : datetime) : Result unit :=
  o <- numeric_claim "exp" "Expiration Time claim (exp) must be an integer." cs ;;
  match o with
  | None => Ok tt
  | Some exp => if exp <? timegm now
                then Raise (JWTError "Signature has expired.")
                else Ok tt
  end.

Definition string_claim (k msg : string) (cs : claims) : Result unit :=
  match dict_get k cs with
  | None => Ok tt
  | Some (JStr _) => Ok tt
  | Some (JNum _) => Raise (JWTError msg)
  end.

Definition _validate_sub (cs : claims) : Result unit :=
  string_claim "sub" "Subject must be a string." cs.

Definition _validate_jti (cs : claims) : Result unit :=
  string_claim "jti" "JWT ID must be a string." cs.

(** No [access_token] is passed by the caller, so a token that carries an
    [at_hash] claim cannot be checked and is refused. *)
Definition _validate_at_hash (cs : claims) : Result unit :=
  match dict_get "at_hash" cs with
  | None => Ok tt
  | Some _ => Raise (JWTError "No access_token provided to compare against at_hash claim.")
  end.

(** [jwt.decode(token, key, algorithms, options={"verify_aud": False})]
    read at the instant [now]. *)
Definition decode (tok : token) (key : string) (algorithms : list string)
  (now : datetime) : Result claims :=
  cs <- verify tok key algorithms ;;
  _ <- _validate_iat cs ;;
  _ <- _validate_nbf cs now ;;
  _ <- _validate_exp cs now ;;
  _ <- _validate_sub cs ;;
  _ <- _validate_jti cs ;;
  _ <- _validate_at_hash cs ;;
  Ok cs.

End Jose.
End jwt.

(* ===================================================================== *)
(** * models/ and schemas/ *)
(* ===================================================================== *)

(** Table [usuarios]. *)
Module UsuarioModel.
Record t : Type := mk {
  id : Z;
  nome : option string;
  sobrenome : option string;
  email : string;
  senha : string;
  admin : option bool
}.
Definition set_nome (v : string) (u : t) : t :=
  mk (id u) (Some v) (sobrenome u) (email u) (senha u) (admin u).
Definition set_sobrenome (v : string) (u : t) : t :=
  mk (id u) (nome u) (Some v) (email u) (senha u) (admin u).
Definition set_email (v : string) (u : t) : t :=
  mk (id u) (nome u) (sobrenome u) v (senha u) (admin u).
Definition set_admin (v : bool) (u : t) : t :=
  mk (id u) (nome u) (sobrenome u) (email u) (senha u) (Some v).
Definition set_senha (v : string) (u : t) : t :=
  mk (id u) (nome u) (sobrenome u) (email u) v (admin u).
End UsuarioModel.

(** Table [artigos]. *)
Module ArtigoModel.
Record t : Type := mk {
  id : Z;
  titulo : string;
  descricao : option string;
  url_fonte : option string;
  usuario_id : Z
}.
Definition set_titulo (v : string) (a : t) : t :=
  mk (id a) v (descricao a) (url_fonte a) (usuario_id a).
Definition set_descricao (v : string) (a : t) : t :=
  mk (id a) (titulo a) (Some v) (url_fonte a) (usuario_id a).
Definition set_url_fonte (v : string) (a : t) : t :=
  mk (id a) (titulo a) (descricao a) (Some v) (usuario_id a).
End ArtigoModel.

(** A validated [pydantic.HttpUrl]; [HttpUrl_str] is [str(url)]. *)
Record HttpUrl : Type := { HttpUrl_str : string }.

Module ArtigoSchema.
Record t : Type := mk {
  id : option Z;
  titulo : string;
  descricao : string;
  url_fonte : HttpUrl;
  usuario_id : option Z
}.
End ArtigoSchema.

Module ArtigoSchemaUp.
Record t : Type := mk {
  id : option Z;
  titulo : option string;
  descricao : option string;
  url_fonte : option HttpUrl;
  usuario_id : option Z
}.
End ArtigoSchemaUp.

Module UsuarioSchemaCreate.
Record t : Type := mk {
  id : option Z;
  nome : string;
  sobrenome : string;
  email : string;
  admin : bool;
  senha : string
}.
End UsuarioSchemaCreate.

Module UsuarioSchemaUp.
Record t : Type := mk {
  id : option Z;
  nome : option string;
  sobrenome : option string;
  email : option string;
  senha : option string;
  admin : option bool
}.
End UsuarioSchemaUp.

Module OAuth2PasswordRequestForm.
Record t : Type := mk { username : string; password : string }.
End OAuth2PasswordRequestForm.

(** What a handler answers with. *)
Inductive content : Type :=
| usuario_content (u : UsuarioModel.t)
| artigo_content (a : ArtigoModel.t)
| message_content (message : string)
| token_content (access_token : token) (token_type : string).

Record Response : Type := { status_code : Z; body : content }.

(** The status FastAPI answers with: an [HTTPException] carries its own,
    any other escaping exception is an internal server error. *)
Definition http_status (r : Result Response) : Z :=
  match r with
  | Ok resp => status_code resp
  | Raise (HTTPException s _) => s
  | Raise _ => HTTP_500_INTERNAL_SERVER_ERROR
  end.

(* ===================================================================== *)
(** * The database behind the session *)
(* ===================================================================== *)

Record Database : Type := {
  usuarios : list UsuarioModel.t;
  artigos : list ArtigoModel.t;
  usuarios_id_seq : Z;
  artigos_id_seq : Z
}.

(** [result.scalars().unique().one_or_none()]. *)
Definition one_or_none {A : Type} (rows : list A) : Result (option A) :=
  match rows with
  | [] => Ok None
  | [x] => Ok (Some x)
  | _ => Raise MultipleResultsFound
  end.

(** UPDATE ... WHERE key = key of [a']: the row with that key becomes [a']. *)
Definition replace_row {A : Type} (key : A -> Z) (a' : A) (l : list A) : list A :=
  map (fun r => if key r =? key a' then a' else r) l.

Definition usuario_by_id (db : Database) (i : Z) : list UsuarioModel.t :=
  filter (fun u => UsuarioModel.id u =? i) (usuarios db).

Definition usuario_by_email (db : Database) (e : string) : list UsuarioModel.t :=
  filter (fun u => String.eqb (UsuarioModel.email u) e) (usuarios db).

Definition artigo_by_id (db : Database) (i : Z) : list ArtigoModel.t :=
  filter (fun a => ArtigoModel.id a =? i) (artigos db).

(** [db.add(UsuarioModel(...)); await db.commit()]: the key is drawn from
    the sequence (which advances even if the INSERT is refused), then the
    primary key and the UNIQUE constraint on [email] are checked. *)
Definition insert_usuario (db : Database) (nome sobrenome : option string)
  (email senha : string) (admin : option bool) : Database * Result UsuarioModel.t :=
  let new_id := usuarios_id_seq db in
  let row := UsuarioModel.mk new_id nome sobrenome email senha admin in
  if existsb (fun u => (UsuarioModel.id u =? new_id) || String.eqb (UsuarioModel.email u) email)
       (usuarios db)
  then ({| usuarios := usuarios db; artigos := artigos db;
           usuarios_id_seq := new_id + 1; artigos_id_seq := artigos_id_seq db |},
        Raise IntegrityError)
  else ({| usuarios := usuarios db ++ [row]; artigos := artigos db;
           usuarios_id_seq := new_id + 1; artigos_id_seq := artigos_id_seq db |},
        Ok row).

(** [await db.commit()] after attributes of a loaded user were assigned:
    the row with the same key is rewritten unless another row already holds
    the e-mail. *)
Definition update_usuario (db : Database) (u : UsuarioModel.t) : Database * Result unit :=
  if existsb (fun r => negb (UsuarioModel.id r =? UsuarioModel.id u)
                       && String.eqb (UsuarioModel.email r) (UsuarioModel.email u))
       (usuarios db)
  then (db, Raise IntegrityError)
  else ({| usuarios := replace_row UsuarioModel.id u (usuarios db);
           artigos := artigos db;
           usuarios_id_seq := usuarios_id_seq db; artigos_id_seq := artigos_id_seq db |},
        Ok tt).

(** [await db.delete(usuario); await db.commit()]: the relationship
    [artigos] is declared with [cascade="all, delete-orphan"], so the
    articles loaded with the user go with the user. *)
Definition delete_usuario_row (db : Database) (u : UsuarioModel.t) : Database :=
  {| usuarios := filter (fun r => negb (UsuarioModel.id r =? UsuarioModel.id u)) (usuarios db);
     artigos := filter (fun a => negb (ArtigoModel.usuario_id a =? UsuarioModel.id u)) (artigos db);
     usuarios_id_seq := usuarios_id_seq db; artigos_id_seq := artigos_id_seq db |}.

(** [db.add(ArtigoModel(...)); await db.commit()]: primary key from the
    sequence, foreign key [usuario_id -> usuarios.id] checked. *)
Definition insert_artigo (db : Database) (titulo : string) (descricao url_fonte : option string)
  (usuario_id : Z) : Database * Result ArtigoModel.t :=
  let new_id := artigos_id_seq db in
  let row := ArtigoModel.mk new_id titulo descricao url_fonte usuario_id in
  if existsb (fun a => ArtigoModel.id a =? new_id) (artigos db)
     || negb (existsb (fun u => UsuarioModel.id u =? usuario_id) (usuarios db))
  then ({| usuarios := usuarios db; artigos := artigos db;
           usuarios_id_seq := usuarios_id_seq db; artigos_id_seq := new_id + 1 |},
        Raise IntegrityError)
  else ({| usuarios := usuarios db; artigos := artigos db ++ [row];
           usuarios_id_seq := usuarios_id_seq db; artigos_id_seq := new_id + 1 |},
        Ok row).

Definition update_artigo (db : Database) (a : ArtigoModel.t) : Database :=
  {| usuarios := usuarios db;
     artigos := replace_row ArtigoModel.id a (artigos db);
     usuarios_id_seq := usuarios_id_seq db; artigos_id_seq := artigos_id_seq db |}.

Definition delete_artigo_row (db : Database) (a : ArtigoModel.t) : Database :=
  {| usuarios := usuarios db;
     artigos := filter (fun r => negb (ArtigoModel.id r =? ArtigoModel.id a)) (artigos db);
     usuarios_id_seq := usuarios_id_seq db; artigos_id_seq := artigos_id_seq db |}.

(** The constraints of the schema, as an invariant of the database. *)
Record db_wf (db : Database) : Prop := {
  wf_usuario_pk : NoDup (map UsuarioModel.id (usuarios db));
  wf_usuario_email : NoDup (map UsuarioModel.email (usuarios db));
  wf_usuario_seq : forall u, In u (usuarios db) -> UsuarioModel.id u < usuarios_id_seq db;
  wf_artigo_pk : NoDup (map ArtigoModel.id (artigos db));
  wf_artigo_seq : forall a, In a (artigos db) -> ArtigoModel.id a < artigos_id_seq db;
  wf_artigo_fk : forall a, In a (artigos db) ->
                 In (ArtigoModel.usuario_id a) (map UsuarioModel.id (usuarios db))
}.

(** The database right after [create_tables]. *)
Definition empty_db : Database :=
  {| usuarios := []; artigos := []; usuarios_id_seq := 1; artigos_id_seq := 1 |}.

(* ===================================================================== *)
(** * core/security.py *)
(* ===================================================================== *)

(** [CRIPTO = CryptContext(schemes=['bcrypt'])]: [hash] draws a salt, which
    is an explicit argument here. *)
Class CryptContext : Type := {
  CRIPTO_hash : string -> string -> string;
  CRIPTO_verify : string -> string -> bool
}.


Section Service.
Context {K : KeyedHash} {CRIPTO : CryptContext}.

Definition verificar_senha (senha hash_senha : string) : bool :=
  CRIPTO_verify senha hash_senha.

Definition gerar_hash_senha (salt senha : string) : string :=
  CRIPTO_hash salt senha.

(* ===================================================================== *)
(** * core/auth.py *)
(* ===================================================================== *)

Definition autenticar (db : Database) (email senha : string) : Result (option UsuarioModel.t) :=
  o <- one_or_none (usuario_by_email db email) ;;
  match o with
  | None => Ok None
  | Some usuario =>
      if negb (verificar_senha senha (UsuarioModel.senha usuario)) then Ok None
      else Ok (Some usuario)
  end.

(** The subject handed to [_criar_token]: the caller passes the integer
    key of the user, [str(sub)] makes it a string. *)
Inductive subject : Type :=
| SubInt (n : Z)
| SubStr (s : string).

Definition str (sub : subject) : string :=
  match sub with
  | SubInt n => Py.str_int n
  | SubStr s => s
  end.

(** The claims [_criar_token] signs, once [jwt.encode] has turned the two
    instants into whole seconds. *)
Definition issued_claims (now_exp now_iat : datetime) (tipo_token : string)
  (tempo_vida : timedelta) (sub : subject) : claims :=
  [ ("type", JStr tipo_token);
    ("exp", JNum (timegm (now_exp + tempo_vida)));
    ("iat", JNum (timegm now_iat));
    ("sub", JStr (str sub)) ].

(** The token that carries [cs] under the configured secret and
    algorithm. *)
Definition signed (cs : claims) : token :=
  JWS settings.ALGORITHM cs (jws_sign settings.JWT_SECRET settings.ALGORITHM cs).

(** The clock is read twice: [now_exp] for the expiry, [now_iat] for the
    issued-at claim. *)
Definition _criar_token (now_exp now_iat : datetime) (tipo_token : string)
  (tempo_vida : timedelta) (sub : subject) : Result token :=
  let expira := now_exp + tempo_vida in
  let payload := [ ("type", VStr tipo_token);
                   ("exp", VDatetime expira);
                   ("iat", VDatetime now_iat);
                   ("sub", VStr (str sub)) ] in
  jwt.encode payload settings.JWT_SECRET settings.ALGORITHM.

Definition criar_token_acesso (now_exp now_iat : datetime) (sub : subject) : Result token :=
  _criar_token now_exp now_iat "access_token"
    (timedelta_minutes settings.ACCESS_TOKEN_EXPIRE_MINUTES) sub.

(** [OAuth2PasswordBearer]: the bearer token of the Authorization header,
    or 401 when there is none. *)
Definition oauth2_schema (authorization : option token) : Result token :=
  match authorization with
  | Some tok => Ok tok
  | None => Raise (HTTPException HTTP_401_UNAUTHORIZED "Not authenticated")
  end.

(* ===================================================================== *)
(** * core/deps.py *)
(* ===================================================================== *)

Definition credential_exception : exception :=
  HTTPException HTTP_401_UNAUTHORIZED "Não foi possível autenticar a credencial".

(** [TokenData(username=username)] accepts a [str] only. *)
Definition TokenData (username : json) : Result string :=
  match username with
  | JStr s => Ok s
  | JNum _ => Raise ValidationError
  end.

(** The [try] block: [JWTError] becomes [credential_exception], nothing
    else is caught. *)
Definition get_current_user_token_data (now : datetime) (tok : token) : Result string :=
  match jwt.decode tok settings.JWT_SECRET [settings.ALGORITHM] now with
  | Raise (JWTError _) => Raise credential_exception
  | Raise e => Raise e
  | Ok payload =>
      match dict_get "sub" payload with
      | None => Raise credential_exception
      | Some username => TokenData username
      end
  end.

Definition get_current_user (db : Database) (now : datetime) (tok : token)
  : Result UsuarioModel.t :=
  token_data <- get_current_user_token_data now tok ;;
  n <- Py.int token_data ;;
  usuario <- one_or_none (usuario_by_id db n) ;;
  match usuario with
  | None => Raise credential_exception
  | Some u => Ok u
  end.

(** [usuario_logado = Depends(get_current_user)]: the handler is called
    with the resolved user, and only if there is one. *)
Definition Depends_get_current_user {A : Type}
  (handler : UsuarioModel.t -> Database -> Database * Result A)
  (db : Database) (now : datetime) (authorization : option token) : Database * Result A :=
  match (tok <- oauth2_schema authorization ;; get_current_user db now tok) with
  | Raise e => (db, Raise e)
  | Ok usuario_logado => handler usuario_logado db
  end.

(* ===================================================================== *)
(** * api/v1/endpoints/artigo.py *)
(* ===================================================================== *)

Definition post_artigo (artigo : ArtigoSchema.t) (usuario_logado : UsuarioModel.t)
  (db : Database) : Database * Result Response :=
  match insert_artigo db (ArtigoSchema.titulo artigo)
          (Some (ArtigoSchema.descricao artigo))
          (Some (HttpUrl_str (ArtigoSchema.url_fonte artigo)))
          (UsuarioModel.id usuario_logado) with
  | (db', Ok novo_artigo) =>
      (db', Ok {| status_code := HTTP_201_CREATED; body := artigo_content novo_artigo |})
  | (db', Raise e) => (db', Raise e)
  end.

(** The three assignments of [put_artigo], each under [if field:]: a field
    that is [None] or an empty string is skipped; a URL object is always
    true. *)
Definition apply_artigo_update (up : ArtigoSchemaUp.t) (artigo : ArtigoModel.t) : ArtigoModel.t :=
  let artigo :=
    match ArtigoSchemaUp.titulo up with
    | Some v => if Py.truthy v then ArtigoModel.set_titulo v artigo else artigo
    | None => artigo
    end in
  let artigo :=
    match ArtigoSchemaUp.descricao up with
    | Some v => if Py.truthy v then ArtigoModel.set_descricao v artigo else artigo
    | None => artigo
    end in
  match ArtigoSchemaUp.url_fonte up with
  | Some u => ArtigoModel.set_url_fonte (HttpUrl_str u) artigo
  | None => artigo
  end.

Definition put_artigo (artigo_id : Z) (artigo_atualizado : ArtigoSchemaUp.t)
  (usuario_logado : UsuarioModel.t) (db : Database) : Database * Result Response :=
  match one_or_none (artigo_by_id db artigo_id) with
  | Raise e => (db, Raise e)
  | Ok (Some artigo) =>
      if negb (UsuarioModel.id usuario_logado =? ArtigoModel.usuario_id artigo)
      then (db, Raise (HTTPException HTTP_401_UNAUTHORIZED
                         "Somente o criador pode atualizar o artigo."))
      else
        let artigo := apply_artigo_update artigo_atualizado artigo in
        (update_artigo db artigo,
         Ok {| status_code := HTTP_202_ACCEPTED; body := artigo_content artigo |})
  | Ok None => (db, Raise (HTTPException HTTP_404_NOT_FOUND "Artigo não encontrado."))
  end.

Definition delete_artigo (artigo_id : Z) (usuario_logado : UsuarioModel.t)
  (db : Database) : Database * Result Response :=
  match one_or_none (artigo_by_id db artigo_id) with
  | Raise e => (db, Raise e)
  | Ok (Some artigo) =>
      if negb (ArtigoModel.usuario_id artigo =? UsuarioModel.id usuario_logado)
      then (db, Raise (HTTPException HTTP_401_UNAUTHORIZED
                         "Somente o criador pode deletar o artigo."))
      else
        (delete_artigo_row db artigo,
         Ok {| status_code := HTTP_200_OK;
               body := message_content "Exclusão feita com sucesso." |})
  | Ok None => (db, Raise (HTTPException HTTP_404_NOT_FOUND "Artigo não encontrado."))
  end.

(* ===================================================================== *)
(** * api/v1/endpoints/usuario.py *)
(* ===================================================================== *)

Definition get_logado (usuario_logado : UsuarioModel.t) (db : Database)
  : Database * Result Response :=
  (db, Ok {| status_code := HTTP_200_OK; body := usuario_content usuario_logado |}).

Definition post_usuario (salt : string) (usuario : UsuarioSchemaCreate.t) (db : Database)
  : Database * Result Response :=
  match insert_usuario db
          (Some (UsuarioSchemaCreate.nome usuario))
          (Some (UsuarioSchemaCreate.sobrenome usuario))
          (UsuarioSchemaCreate.email usuario)
          (gerar_hash_senha salt (UsuarioSchemaCreate.senha usuario))
          (Some (UsuarioSchemaCreate.admin usuario)) with
  | (db', Ok novo_usuario) =>
      (db', Ok {| status_code := HTTP_201_CREATED; body := usuario_content novo_usuario |})
  | (db', Raise IntegrityError) =>
      (db', Raise (HTTPException HTTP_406_NOT_ACCEPTABLE
                     "Já existe um usuário com esse e-mail cadastrado."))
  | (db', Raise e) => (db', Raise e)
  end.

(** The five assignments of [put_usuario], each under [is not None]. *)
Definition apply_usuario_update (salt : string) (up : UsuarioSchemaUp.t)
  (usuario : UsuarioModel.t) : UsuarioModel.t :=
  let usuario := match UsuarioSchemaUp.nome up with
                 | Some v => UsuarioModel.set_nome v usuario | None => usuario end in
  let usuario := match UsuarioSchemaUp.sobrenome up with
                 | Some v => UsuarioModel.set_sobrenome v usuario | None => usuario end in
  let usuario := match UsuarioSchemaUp.email up with
                 | Some v => UsuarioModel.set_email v usuario | None => usuario end in
  let usuario := match UsuarioSchemaUp.admin up with
                 | Some v => UsuarioModel.set_admin v usuario | None => usuario end in
  match UsuarioSchemaUp.senha up with
  | Some v => UsuarioModel.set_senha (gerar_hash_senha salt v) usuario
  | None => usuario
  end.

Definition put_usuario (salt : string) (usuario_id : Z) (usuario_atualizado : UsuarioSchemaUp.t)
  (db : Database) : Database * Result Response :=
  match one_or_none (usuario_by_id db usuario_id) with
  | Raise e => (db, Raise e)
  | Ok (Some usuario) =>
      let usuario := apply_usuario_update salt usuario_atualizado usuario in
      match update_usuario db usuario with
      | (db', Ok _) =>
          (db', Ok {| status_code := HTTP_202_ACCEPTED; body := usuario_content usuario |})
      | (db', Raise e) => (db', Raise e)
      end
  | Ok None => (db, Raise (HTTPException HTTP_404_NOT_FOUND "Usuário não encontrado."))
  end.

Definition delete_usuario (usuario_id : Z) (db : Database) : Database * Result Response :=
  match one_or_none (usuario_by_id db usuario_id) with
  | Raise e => (db, Raise e)
  | Ok (Some usuario) =>
      (delete_usuario_row db usuario,
       Ok {| status_code := HTTP_200_OK;
             body := message_content "Exclusão feita com sucesso." |})
  | Ok None => (db, Raise (HTTPException HTTP_404_NOT_FOUND "Usuário não encontrado."))
  end.

Definition login (now_exp now_iat : datetime) (form_data : OAuth2PasswordRequestForm.t)
  (db : Database) : Result Response :=
  usuario <- autenticar db (OAuth2PasswordRequestForm.username form_data)
               (OAuth2PasswordRequestForm.password form_data) ;;
  match usuario with
  | None => Raise (HTTPException HTTP_400_BAD_REQUEST "Dados de acesso incorretos.")
  | Some u =>
      tok <- criar_token_acesso now_exp now_iat (SubInt (UsuarioModel.id u)) ;;
      Ok {| status_code := HTTP_200_OK; body := token_content tok "bearer" |}
  end.

(* ===================================================================== *)
(** * The routes that require a user *)
(* ===================================================================== *)

Definition POST_artigos (artigo : ArtigoSchema.t) :=
  Depends_get_current_user (post_artigo artigo).

Definition PUT_artigos (artigo_id : Z) (artigo_atualizado : ArtigoSchemaUp.t) :=
  Depends_get_current_user (put_artigo artigo_id artigo_atualizado).

Definition DELETE_artigos (artigo_id : Z) :=
  Depends_get_current_user (delete_artigo artigo_id).

Definition GET_usuarios_logado :=
  Depends_get_current_user get_logado.

End Service.

(* ===================================================================== *)
(** * The service as a transition system *)
(* ===================================================================== *)

(** The requests that can change the database. *)
Inductive request : Type :=
| POST_usuarios_signup (salt : string) (usuario : UsuarioSchemaCreate.t)
| PUT_usuarios (salt : string) (usuario_id : Z) (usuario_atualizado : UsuarioSchemaUp.t)
| DELETE_usuarios (usuario_id : Z)
| POST_artigos_req (now : datetime) (authorization : option token) (artigo : ArtigoSchema.t)
| PUT_artigos_req (now : datetime) (authorization : option token) (artigo_id : Z)
    (artigo_atualizado : ArtigoSchemaUp.t)
| DELETE_artigos_req (now : datetime) (authorization : option token) (artigo_id : Z).

Section Server.
Context {K : KeyedHash} {CRIPTO : CryptContext}.

Definition serve (r : request) (db : Database) : Database * Result Response :=
  match r with
  | POST_usuarios_signup salt usuario => post_usuario salt usuario db
  | PUT_usuarios salt i up => put_usuario salt i up db
  | DELETE_usuarios i => delete_usuario i db
  | POST_artigos_req now auth artigo => POST_artigos artigo db now auth
  | PUT_artigos_req now auth i up => PUT_artigos i up db now auth
  | DELETE_artigos_req now auth i => DELETE_artigos i db now auth
  end.

(** The database after a sequence of requests. *)
Fixpoint run (rs : list request) (db : Database) : Database :=
  match rs with
  | [] => db
  | r :: rs' => run rs' (fst (serve r db))
  end.

End Server.

(* ===================================================================== *)
(** * Requests that must not resolve to a user *)
(* ===================================================================== *)

(** The token does not verify: it is not a JWS, its algorithm is not the
    configured one, its signature is not the one the configured secret
    gives, or its expiry lies before the current second. *)
Inductive fails_verification {K : KeyedHash} (now : datetime) : token -> Prop :=
| fv_malformed raw :
    fails_verification now (Malformed raw)
| fv_algorithm alg cs sig :
    alg <> settings.ALGORITHM ->
    fails_verification now (JWS alg cs sig)
| fv_signature alg cs sig :
    sig <> jws_sign settings.JWT_SECRET alg cs ->
    fails_verification now (JWS alg cs sig)
| fv_expired alg cs sig exp :
    dict_get "exp" cs = Some (JNum exp) -> exp < timegm now ->
    fails_verification now (JWS alg cs sig).

(** The token does not verify, or carries no subject, or its subject is
    the key of no stored user. *)
Inductive unauthenticated {K : KeyedHash} (db : Database) (now : datetime)
  : token -> Prop :=
| unauth_invalid tok :
    fails_verification now tok ->
    unauthenticated db now tok
| unauth_no_sub alg cs sig :
    dict_get "sub" cs = None ->
    unauthenticated db now (JWS alg cs sig)
| unauth_no_user alg cs sig s n :
    dict_get "sub" cs = Some (JStr s) -> Py.int s = Ok n ->
    (forall u, In u (usuarios db) -> UsuarioModel.id u <> n) ->
    unauthenticated db now (JWS alg cs sig).

(* ===================================================================== *)
(** * The handlers that only read *)
(* ===================================================================== *)

(** What these handlers return is the value FastAPI serialises with the
    status 200; none of them commits. *)


(** [GET /artigos/{artigo_id}]. *)
Definition get_artigo (artigo_id : Z) (db : Database) : Result ArtigoModel.t :=
  artigo <- one_or_none (artigo_by_id db artigo_id) ;;
  match artigo with
  | Some a => Ok a
  | None => Raise (HTTPException HTTP_404_NOT_FOUND "Artigo não encontrado.")
  end.

(** [usuario.artigos]: the relationship is loaded with the user
    ([lazy="joined"]), it holds the articles whose [usuario_id] is the key
    of the user. *)
Definition UsuarioModel_artigos (db : Database) (u : UsuarioModel.t) : list ArtigoModel.t :=
  filter (fun a => ArtigoModel.usuario_id a =? UsuarioModel.id u) (artigos db).

(** [GET /usuarios/]: the first of the two handlers the source names
    [get_usuario]. *)
Definition get_usuarios (db : Database) : Result (list UsuarioModel.t) :=
  Ok (usuarios db).

(** [GET /usuarios/{usuario_id}], answered through [UsuarioSchemaArtigos]:
    the user and the articles of the user. *)
Definition get_usuario (usuario_id : Z) (db : Database)
  : Result (UsuarioModel.t * list ArtigoModel.t) :=
  usuario <- one_or_none (usuario_by_id db usuario_id) ;;
  match usuario with
  | Some u => Ok (u, UsuarioModel_artigos db u)
  | None => Raise (HTTPException HTTP_404_NOT_FOUND "Usuário não encontrado.")
  end.

(* ===================================================================== *)
(** * A concrete instance, to run the handlers on examples *)
(* ===================================================================== *)

Module Demo.

Definition render (v : json) : string :=
  match v with
  | JStr s => s
  | JNum n => Py.str_int n
  end.

Fixpoint render_claims (cs : claims) : string :=
  match cs with
  | [] => ""
  | (k, v) :: cs' => k ++ "=" ++ render v ++ ";" ++ render_claims cs'
  end.

(** A stand-in for HMAC: the signature spells out key, algorithm and
    claims. *)
Definition keyed_hash : KeyedHash :=
  {| jws_sign := fun key alg cs => key ++ "/" ++ alg ++ "/" ++ render_claims cs |}.

(** A stand-in for bcrypt: the password under a marker; the salt is
    ignored. *)
Definition crypt_context : CryptContext :=
  {| CRIPTO_hash := fun salt senha => "$2b$" ++ senha;
     CRIPTO_verify := fun senha h => String.eqb h ("$2b$" ++ senha) |}.

Definition ana : UsuarioModel.t :=
  UsuarioModel.mk 1 (Some "Ana") (Some "Lima") "ana@x.com" "$2b$pw1" (Some false).

Definition bia : UsuarioModel.t :=
  UsuarioModel.mk 2 (Some "Bia") (Some "Reis") "bia@x.com" "$2b$pw2" (Some false).

Definition artigo_ana : ArtigoModel.t :=
  ArtigoModel.mk 1 "Rocq" (Some "notes") (Some "https://rocq-prover.org/") 1.

Definition artigo_bia : ArtigoModel.t :=
  ArtigoModel.mk 2 "Iris" (Some "logic") (Some "https://iris-project.org/") 2.

Definition db : Database :=
  {| usuarios := [ana; bia]; artigos := [artigo_ana; artigo_bia];
     usuarios_id_seq := 3; artigos_id_seq := 3 |}.

(** A token for [ana], issued at second 1000 for 1000 seconds. *)
Definition token_ana : token :=
  signed (K := keyed_hash)
    (issued_claims 1000000000 1000000000 "access_token" 1000000000 (SubInt 1)).


End Demo.

(* ===================================================================== *)
(** * Queries on tables with a key *)
(* ===================================================================== *)

Section Keys.
Context {A B : Type} (key : A -> B) (p : A -> bool) (k : B).
Hypothesis p_spec : forall x, p x = true <-> key x = k.

Lemma filter_key_absent (l : list A) :
  (forall x, In x l -> key x <> k) -> filter p l = [].
Proof.
  induction l as [|x l IH]; intros Hno; simpl; [reflexivity|].
  destruct (p x) eqn:Hp.
  - apply p_spec in Hp. exfalso. apply (Hno x); [left; reflexivity | exact Hp].
  - apply IH. intros y Hy. apply Hno. right. exact Hy.
Qed.

Lemma filter_key_unique (l : list A) (a : A) :
  NoDup (map key l) -> In a l -> key a = k -> filter p l = [a].
Proof.
  induction l as [|x l IH]; intros Hnd Hin Hk; [contradiction|].
  simpl in Hnd. apply NoDup_cons_iff in Hnd. destruct Hnd as [Hnotin Hnd'].
  simpl. destruct Hin as [Hxa | Hin].
  - rewrite Hxa in *.
    assert (Hp : p a = true) by (apply p_spec; exact Hk).
    rewrite Hp. f_equal. apply filter_key_absent.
    intros y Hy Heq. apply Hnotin. rewrite Hk, <- Heq. apply in_map. exact Hy.
  - destruct (p x) eqn:Hp.
    + apply p_spec in Hp. exfalso. apply Hnotin.
      rewrite Hp, <- Hk. apply in_map. exact Hin.
    + apply IH; assumption.
Qed.

Lemma filter_key_sound (l : list A) (a : A) :
  In a (filter p l) -> In a l /\ key a = k.
Proof.
  intros H. apply filter_In in H. destruct H as [Hin Hp].
  split; [exact Hin | apply p_spec; exact Hp].
Qed.

End Keys.

Lemma one_or_none_some {A : Type} (l : list A) (a : A) :
  one_or_none l = Ok (Some a) -> l = [a].
Proof.
  destruct l as [|x [|y l]]; simpl; intros H; inversion H; reflexivity.
Qed.

Lemma usuario_id_spec (i : Z) (u : UsuarioModel.t) :
  (UsuarioModel.id u =? i) = true <-> UsuarioModel.id u = i.
Proof. apply Z.eqb_eq. Qed.

Lemma usuario_email_spec (e : string) (u : UsuarioModel.t) :
  String.eqb (UsuarioModel.email u) e = true <-> UsuarioModel.email u = e.
Proof. apply String.eqb_eq. Qed.

Lemma artigo_id_spec (i : Z) (a : ArtigoModel.t) :
  (ArtigoModel.id a =? i) = true <-> ArtigoModel.id a = i.
Proof. apply Z.eqb_eq. Qed.

(* ===================================================================== *)
(** * Token verification *)
(* ===================================================================== *)

Lemma digits_raises (s : string) : forall acc prev e,
  Py.digits acc prev s = Raise e -> e = ValueError.
Proof.
  induction s as [|c s IH]; intros acc prev e; simpl.
  - destruct prev; intros H; inversion H; reflexivity.
  - destruct (Py.isdigit c); [apply IH|].
    destruct (Ascii.eqb c "_").
    + destruct prev; [apply IH | intros H; inversion H; reflexivity].
    + destruct (Py.isspace c); [|intros H; inversion H; reflexivity].
      destruct (prev && Py.all_space s); intros H; inversion H; reflexivity.
Qed.

Lemma int_raises (s : string) (e : exception) :
  Py.int s = Raise e -> e = ValueError.
Proof.
  unfold Py.int.
  assert (Hneg : forall s', (n <- Py.digits 0 false s' ;; Ok (- n)) = Raise e -> e = ValueError).
  { intros s'. destruct (Py.digits 0 false s') eqn:Hd; simpl; intros H; inversion H; subst.
    eapply digits_raises; eassumption. }
  destruct (Py.lstrip s) as [|c s'] eqn:Hs; [apply digits_raises|].
  destruct c as [[] [] [] [] [] [] [] []]; try apply digits_raises; apply Hneg.
Qed.

(** [int] reads back what [str] prints. *)
Lemma digits_step (c : ascii) (s : string) (acc : Z) (prev : bool) :
  Py.isdigit c = true ->
  Py.digits acc prev (String c s) = Py.digits (10 * acc + Py.digit_value c) true s.
Proof. intros H. simpl. rewrite H. reflexivity. Qed.

Ltac digit_case IH :=
  simpl NilEmpty.string_of_uint; rewrite digits_step by reflexivity;
  match goal with
  | |- context [Py.digit_value ?c] =>
      let v := eval vm_compute in (Py.digit_value c) in
      change (Py.digit_value c) with v
  end.

Lemma digits_uint_acc (d : Decimal.uint) : forall acc : positive,
  Py.digits (Z.pos acc) true (NilEmpty.string_of_uint d) = Ok (Z.pos (Pos.of_uint_acc d acc)).
Proof.
  induction d as [|d IH|d IH|d IH|d IH|d IH|d IH|d IH|d IH|d IH|d IH]; intros acc;
    [reflexivity|..]; digit_case IH; cbn [Pos.of_uint_acc]; rewrite <- IH; f_equal; lia.
Qed.

Lemma digits_uint (d : Decimal.uint) : forall prev : bool,
  prev = true \/ d <> Decimal.Nil ->
  Py.digits 0 prev (NilEmpty.string_of_uint d) = Ok (Z.of_uint d).
Proof.
  unfold Z.of_uint.
  induction d as [|d IH|d IH|d IH|d IH|d IH|d IH|d IH|d IH|d IH|d IH]; intros prev Hp.
  - destruct Hp as [->|Hp]; [reflexivity | contradiction].
  - digit_case IH. cbn [Pos.of_uint]. apply IH. left. reflexivity.
  - digit_case IH. apply (digits_uint_acc d 1).
  - digit_case IH. apply (digits_uint_acc d 2).
  - digit_case IH. apply (digits_uint_acc d 3).
  - digit_case IH. apply (digits_uint_acc d 4).
  - digit_case IH. apply (digits_uint_acc d 5).
  - digit_case IH. apply (digits_uint_acc d 6).
  - digit_case IH. apply (digits_uint_acc d 7).
  - digit_case IH. apply (digits_uint_acc d 8).
  - digit_case IH. apply (digits_uint_acc d 9).
Qed.

Lemma digits_NilZero (d : Decimal.uint) :
  Py.digits 0 false (NilZero.string_of_uint d) = Ok (Z.of_uint d).
Proof.
  destruct d; try (apply digits_uint; right; discriminate). reflexivity.
Qed.

Lemma int_NilZero (d : Decimal.uint) :
  Py.int (NilZero.string_of_uint d) = Ok (Z.of_uint d).
Proof.
  unfold Py.int.
  destruct d; try (rewrite <- digits_NilZero; reflexivity).
Qed.

(** [int(str(n)) == n]. *)
Lemma int_str_int (n : Z) : Py.int (Py.str_int n) = Ok n.
Proof.
  unfold Py.str_int. rewrite <- (of_to n) at 2.
  destruct (Z.to_int n) as [d|d]; simpl NilZero.string_of_int; simpl Z.of_int.
  - apply int_NilZero.
  - change (Py.int (String "-" (NilZero.string_of_uint d)))
      with (n <- Py.digits 0 false (NilZero.string_of_uint d) ;; Ok (- n)).
    rewrite digits_NilZero. reflexivity.
Qed.

Section TokenFacts.
Context {K : KeyedHash}.

Lemma numeric_claim_raises k msg cs e :
  jwt.numeric_claim k msg cs = Raise e -> e = JWTError msg.
Proof.
  unfold jwt.numeric_claim. destruct (dict_get k cs) as [v|]; [|discriminate].
  destruct (jwt.claim_int v) as [n|e'] eqn:Hv; [discriminate|].
  assert (e' = ValueError) as ->.
  { destruct v; simpl in Hv; [eapply int_raises; eassumption | discriminate]. }
  intros H; inversion H; reflexivity.
Qed.

Lemma string_claim_raises k msg cs e :
  jwt.string_claim k msg cs = Raise e -> e = JWTError msg.
Proof.
  unfold jwt.string_claim. destruct (dict_get k cs) as [[s|n]|]; intros H; inversion H; reflexivity.
Qed.

(** Whatever goes wrong inside [jwt.decode] is a [JWTError]. *)
Lemma decode_raises tok key algs now e :
  jwt.decode tok key algs now = Raise e -> exists msg, e = JWTError msg.
Proof.
  unfold jwt.decode.
  destruct (jwt.verify tok key algs) as [cs|e0] eqn:Hv; simpl.
  2:{ intros H; inversion H; subst. unfold jwt.verify in Hv.
      destruct tok as [raw|alg cs sig]; [inversion Hv; eauto|].
      destruct (negb (existsb (String.eqb alg) algs)); [inversion Hv; eauto|].
      destruct (negb (String.eqb sig (jws_sign key alg cs))); inversion Hv; eauto. }
  unfold jwt._validate_iat.
  destruct (jwt.numeric_claim "iat" _ cs) as [o1|e1] eqn:H1; simpl.
  2:{ intros H; inversion H; subst. apply numeric_claim_raises in H1. eauto. }
  unfold jwt._validate_nbf.
  destruct (jwt.numeric_claim "nbf" _ cs) as [o2|e2] eqn:H2; simpl.
  2:{ intros H; inversion H; subst. apply numeric_claim_raises in H2. eauto. }
  destruct (match o2 with Some nbf => _ | None => _ end) as [u2|e2] eqn:H2'; simpl.
  2:{ intros H; inversion H; subst. destruct o2 as [nbf|]; [|discriminate].
      destruct (timegm now <? nbf); inversion H2'; eauto. }
  unfold jwt._validate_exp.
  destruct (jwt.numeric_claim "exp" _ cs) as [o3|e3] eqn:H3; simpl.
  2:{ intros H; inversion H; subst. apply numeric_claim_raises in H3. eauto. }
  destruct (match o3 with Some exp => _ | None => _ end) as [u3|e3] eqn:H3'; simpl.
  2:{ intros H; inversion H; subst. destruct o3 as [exp|]; [|discriminate].
      destruct (exp <? timegm now); inversion H3'; eauto. }
  unfold jwt._validate_sub, jwt._validate_jti.
  destruct (jwt.string_claim "sub" _ cs) as [u4|e4] eqn:H4; simpl.
  2:{ intros H; inversion H; subst. apply string_claim_raises in H4. eauto. }
  destruct (jwt.string_claim "jti" _ cs) as [u5|e5] eqn:H5; simpl.
  2:{ intros H; inversion H; subst. apply string_claim_raises in H5. eauto. }
  unfold jwt._validate_at_hash.
  destruct (dict_get "at_hash" cs); simpl; intros H; inversion H; eauto.
Qed.

(** What a successful [jwt.decode] has checked. *)
Lemma decode_ok tok key algs now cs :
  jwt.decode tok key algs now = Ok cs ->
  (exists alg, tok = JWS alg cs (jws_sign key alg cs) /\ In alg algs) /\
  (forall exp, dict_get "exp" cs = Some (JNum exp) -> timegm now <= exp) /\
  (forall v, dict_get "sub" cs = Some v -> exists s, v = JStr s).
Proof.
  unfold jwt.decode.
  destruct (jwt.verify tok key algs) as [cs0|e0] eqn:Hv; simpl; [|discriminate].
  destruct (jwt._validate_iat cs0); simpl; [|discriminate].
  destruct (jwt._validate_nbf cs0 now); simpl; [|discriminate].
  destruct (jwt._validate_exp cs0 now) eqn:Hexp; simpl; [|discriminate].
  destruct (jwt._validate_sub cs0) eqn:Hsub; simpl; [|discriminate].
  destruct (jwt._validate_jti cs0); simpl; [|discriminate].
  destruct (jwt._validate_at_hash cs0); simpl; [|discriminate].
  intros H; inversion H; subst cs0; clear H.
  split; [|split].
  - unfold jwt.verify in Hv. destruct tok as [raw|alg cs' sig]; [discriminate|].
    destruct (existsb (String.eqb alg) algs) eqn:Halg; simpl in Hv; [|discriminate].
    destruct (String.eqb sig (jws_sign key alg cs')) eqn:Hsig; simpl in Hv; [|discriminate].
    inversion Hv; subst. apply String.eqb_eq in Hsig. subst sig.
    exists alg. split; [reflexivity|].
    apply existsb_exists in Halg. destruct Halg as [x [Hin Hx]].
    apply String.eqb_eq in Hx. subst. exact Hin.
  - intros exp Hget. unfold jwt._validate_exp, jwt.numeric_claim in Hexp.
    rewrite Hget in Hexp. simpl in Hexp.
    destruct (exp <? timegm now) eqn:Hlt; [discriminate|].
    apply Z.ltb_ge in Hlt. exact Hlt.
  - intros v Hget. unfold jwt._validate_sub, jwt.string_claim in Hsub.
    rewrite Hget in Hsub. destruct v as [s|n]; [eauto | discriminate].
Qed.

End TokenFacts.

(* ===================================================================== *)
(** * Current-user resolution *)
(* ===================================================================== *)

Section Resolution.
Context {K : KeyedHash} {CRIPTO : CryptContext}.

Lemma fails_verification_raises now tok :
  fails_verification now tok ->
  exists msg, jwt.decode tok settings.JWT_SECRET [settings.ALGORITHM] now = Raise (JWTError msg).
Proof.
  intros Hfv.
  destruct (jwt.decode tok settings.JWT_SECRET [settings.ALGORITHM] now) as [cs'|e] eqn:Hd.
  - exfalso. apply decode_ok in Hd. destruct Hd as [[alg' [Htok Halg]] [Hexp _]].
    destruct Hfv as [raw|alg cs sig Hne|alg cs sig Hne|alg cs sig exp Hget Hlt].
    + discriminate.
    + inversion Htok; subst. destruct Halg as [Heq|[]]. apply Hne. symmetry. exact Heq.
    + inversion Htok; subst. apply Hne. reflexivity.
    + inversion Htok; subst. apply Hexp in Hget. lia.
  - apply decode_raises in Hd. destruct Hd as [msg ->]. exists msg. reflexivity.
Qed.

Lemma get_current_user_decode_raises db now tok msg :
  jwt.decode tok settings.JWT_SECRET [settings.ALGORITHM] now = Raise (JWTError msg) ->
  get_current_user db now tok = Raise credential_exception.
Proof.
  intros Hd. unfold get_current_user, get_current_user_token_data. rewrite Hd. reflexivity.
Qed.

Lemma get_current_user_refuses db now tok :
  unauthenticated db now tok ->
  get_current_user db now tok = Raise credential_exception.
Proof.
  intros [tok' Hfv|alg cs sig Hsub|alg cs sig s n Hsub Hint Hno].
  - apply fails_verification_raises in Hfv. destruct Hfv as [msg Hd].
    eapply get_current_user_decode_raises; eassumption.
  - destruct (jwt.decode (JWS alg cs sig) settings.JWT_SECRET [settings.ALGORITHM] now)
      as [cs'|e] eqn:Hd.
    + pose proof (decode_ok _ _ _ _ _ Hd) as [[alg' [Htok _]] _].
      assert (cs' = cs) as -> by (inversion Htok; reflexivity). clear Htok.
      unfold get_current_user, get_current_user_token_data. rewrite Hd, Hsub. reflexivity.
    + pose proof (decode_raises _ _ _ _ _ Hd) as [msg ->].
      eapply get_current_user_decode_raises; eassumption.
  - destruct (jwt.decode (JWS alg cs sig) settings.JWT_SECRET [settings.ALGORITHM] now)
      as [cs'|e] eqn:Hd.
    + pose proof (decode_ok _ _ _ _ _ Hd) as [[alg' [Htok _]] _].
      assert (cs' = cs) as -> by (inversion Htok; reflexivity). clear Htok.
      unfold get_current_user, get_current_user_token_data. rewrite Hd, Hsub. simpl.
      rewrite Hint. simpl. unfold usuario_by_id.
      rewrite (filter_key_absent UsuarioModel.id _ n (usuario_id_spec n) _ Hno). reflexivity.
    + pose proof (decode_raises _ _ _ _ _ Hd) as [msg ->].
      eapply get_current_user_decode_raises; eassumption.
Qed.


(** A request without a bearer token is refused before any token is
    looked at. *)
Lemma missing_token_is_refused {A : Type}
  (handler : UsuarioModel.t -> Database -> Database * Result A) db now :
  Depends_get_current_user handler db now None
  = (db, Raise (HTTPException HTTP_401_UNAUTHORIZED "Not authenticated")).
Proof. reflexivity. Qed.

End Resolution.

(* ===================================================================== *)
(** * Issued tokens *)
(* ===================================================================== *)

Section Issuing.
Context {K : KeyedHash}.

Lemma _criar_token_ok now_exp now_iat tipo_token tempo_vida sub :
  _criar_token now_exp now_iat tipo_token tempo_vida sub
  = Ok (signed (issued_claims now_exp now_iat tipo_token tempo_vida sub)).
Proof. reflexivity. Qed.

Lemma verify_signed cs :
  jwt.verify (signed cs) settings.JWT_SECRET [settings.ALGORITHM] = Ok cs.
Proof.
  unfold signed, jwt.verify.
  replace (existsb (String.eqb settings.ALGORITHM) [settings.ALGORITHM]) with true
    by reflexivity.
  rewrite String.eqb_refl. reflexivity.
Qed.

(** Decoding an issued token: the only check that depends on the instant
    is the expiry, compared in whole seconds. *)
Lemma decode_issued now_exp now_iat tipo_token tempo_vida sub now :
  jwt.decode (signed (issued_claims now_exp now_iat tipo_token tempo_vida sub))
    settings.JWT_SECRET [settings.ALGORITHM] now
  = if timegm (now_exp + tempo_vida) <? timegm now
    then Raise (JWTError "Signature has expired.")
    else Ok (issued_claims now_exp now_iat tipo_token tempo_vida sub).
Proof.
  unfold jwt.decode. rewrite verify_signed. cbn [bind].
  unfold jwt._validate_iat, jwt._validate_nbf, jwt._validate_exp, jwt._validate_sub,
    jwt._validate_jti, jwt._validate_at_hash, jwt.numeric_claim, jwt.string_claim,
    issued_claims.
  cbn [dict_get String.eqb Ascii.eqb Bool.eqb jwt.claim_int bind].
  destruct (timegm (now_exp + tempo_vida) <? timegm now); reflexivity.
Qed.

Lemma timegm_monotone (a b : datetime) : a <= b -> timegm a <= timegm b.
Proof. intros H. unfold timegm. apply Z.div_le_mono; lia. Qed.

(** C3, as the code has it.  A token issued at [t] for subject [sub] with
    lifetime [L] decodes to the subject [str sub] at every instant whose
    whole second is not after the whole second of [t + L]: in particular
    at every instant strictly before [t + L], and still at [t + L] itself.
    It is rejected as expired from the next whole second on.  A token
    decodes only if its algorithm is the configured one, its signature is
    the one the configured secret gives, and the current second is not
    after its expiry claim. *)
Theorem issued_token_validity_window
  (sub : subject) (L : timedelta) (t t_iat now : datetime) :
  let cs := issued_claims t t_iat "access_token" L sub in
  let decode tok at_ := jwt.decode tok settings.JWT_SECRET [settings.ALGORITHM] at_ in
  _criar_token t t_iat "access_token" L sub = Ok (signed cs) /\
  dict_get "sub" cs = Some (JStr (str sub)) /\
  (timegm now <= timegm (t + L) -> decode (signed cs) now = Ok cs) /\
  (now < t + L -> decode (signed cs) now = Ok cs) /\
  (timegm (t + L) < timegm now ->
     decode (signed cs) now = Raise (JWTError "Signature has expired.")) /\
  (forall tok cs', decode tok now = Ok cs' ->
     tok = signed cs' /\
     forall exp, dict_get "exp" cs' = Some (JNum exp) -> timegm now <= exp).
Proof.
  cbv zeta. split; [apply _criar_token_ok|]. split; [reflexivity|].
  split; [|split; [|split]].
  - intros Hle. rewrite decode_issued.
    destruct (timegm (t + L) <? timegm now) eqn:Hlt; [|reflexivity].
    apply Z.ltb_lt in Hlt. lia.
  - intros Hlt. rewrite decode_issued.
    destruct (timegm (t + L) <? timegm now) eqn:Hlt'; [|reflexivity].
    apply Z.ltb_lt in Hlt'. pose proof (timegm_monotone now (t + L)). lia.
  - intros Hlt. rewrite decode_issued.
    destruct (timegm (t + L) <? timegm now) eqn:Hlt'; [reflexivity|].
    apply Z.ltb_ge in Hlt'. lia.
  - intros tok cs' Hd. apply decode_ok in Hd.
    destruct Hd as [[alg [Htok Halg]] [Hexp _]].
    destruct Halg as [<-|[]]. split; [exact Htok | exact Hexp].
Qed.

(** A verified token whose subject is not the decimal form of an integer
    is not turned into [credential_exception]: [int] raises [ValueError]
    outside the [try] block. *)
Lemma get_current_user_unparsable db now tok cs s :
  jwt.decode tok settings.JWT_SECRET [settings.ALGORITHM] now = Ok cs ->
  dict_get "sub" cs = Some (JStr s) ->
  Py.int s = Raise ValueError ->
  get_current_user db now tok = Raise ValueError.
Proof.
  intros Hd Hsub Hint. unfold get_current_user, get_current_user_token_data.
  rewrite Hd, Hsub. simpl. rewrite Hint. reflexivity.
Qed.

(** C2, evaluated.  A token signed with the configured secret, not
    expired, whose subject is ["abc"], or the empty string: [jwt.decode]
    accepts it, then [get_current_user] raises [ValueError], which the
    route answers with 500 and not with 401. *)
Theorem unparsable_subject_raises_ValueError (db : Database) :
  let tok s := signed (issued_claims 1000000000 1000000000 "access_token" 60000000
                         (SubStr s)) in
  let now := 1030000000 in
  (get_current_user db now (tok "abc") = Raise ValueError /\
   get_current_user db now (tok "abc") <> Raise credential_exception /\
   http_status (snd (GET_usuarios_logado db now (Some (tok "abc"))))
   = HTTP_500_INTERNAL_SERVER_ERROR) /\
  (get_current_user db now (tok "") = Raise ValueError /\
   http_status (snd (GET_usuarios_logado db now (Some (tok ""))))
   = HTTP_500_INTERNAL_SERVER_ERROR).
Proof.
  cbv zeta.
  assert (Hg : forall s, Py.int s = Raise ValueError ->
               get_current_user db 1030000000
                 (signed (issued_claims 1000000000 1000000000 "access_token" 60000000
                            (SubStr s))) = Raise ValueError).
  { intros s Hs. eapply get_current_user_unparsable.
    - rewrite decode_issued. reflexivity.
    - reflexivity.
    - exact Hs. }
  assert (Hroute : forall s, Py.int s = Raise ValueError ->
               http_status (snd (GET_usuarios_logado db 1030000000
                 (Some (signed (issued_claims 1000000000 1000000000 "access_token" 60000000
                                  (SubStr s))))))
               = HTTP_500_INTERNAL_SERVER_ERROR).
  { intros s Hs. unfold GET_usuarios_logado, Depends_get_current_user.
    cbv beta iota delta [oauth2_schema bind]. rewrite (Hg s Hs). reflexivity. }
  split.
  - split; [apply Hg; reflexivity|]. split; [|apply Hroute; reflexivity].
    rewrite Hg by reflexivity. discriminate.
  - split; [apply Hg; reflexivity | apply Hroute; reflexivity].
Qed.

End Issuing.

(* ===================================================================== *)
(** * Lookups by key *)
(* ===================================================================== *)

Lemma existsb_false {A : Type} (f : A -> bool) (l : list A) :
  existsb f l = false <-> forall x, In x l -> f x = false.
Proof.
  induction l as [|y l IH]; simpl.
  - split; [intros _ x [] | reflexivity].
  - rewrite orb_false_iff, IH. split.
    + intros [Hy Hl] x [<-|Hx]; [exact Hy | apply Hl; exact Hx].
    + intros H. split; [apply H; left; reflexivity | intros x Hx; apply H; right; exact Hx].
Qed.

Lemma artigo_found db a :
  db_wf db -> In a (artigos db) ->
  one_or_none (artigo_by_id db (ArtigoModel.id a)) = Ok (Some a).
Proof.
  intros Hwf Hin. unfold artigo_by_id.
  rewrite (filter_key_unique ArtigoModel.id _ _ (artigo_id_spec _) _ a
             (wf_artigo_pk db Hwf) Hin eq_refl).
  reflexivity.
Qed.

Lemma artigo_absent db i :
  (forall a, In a (artigos db) -> ArtigoModel.id a <> i) ->
  one_or_none (artigo_by_id db i) = Ok None.
Proof.
  intros Hno. unfold artigo_by_id.
  rewrite (filter_key_absent ArtigoModel.id _ i (artigo_id_spec i) _ Hno). reflexivity.
Qed.

Lemma usuario_found db u :
  db_wf db -> In u (usuarios db) ->
  one_or_none (usuario_by_id db (UsuarioModel.id u)) = Ok (Some u).
Proof.
  intros Hwf Hin. unfold usuario_by_id.
  rewrite (filter_key_unique UsuarioModel.id _ _ (usuario_id_spec _) _ u
             (wf_usuario_pk db Hwf) Hin eq_refl).
  reflexivity.
Qed.

Lemma usuario_absent db i :
  (forall u, In u (usuarios db) -> UsuarioModel.id u <> i) ->
  one_or_none (usuario_by_id db i) = Ok None.
Proof.
  intros Hno. unfold usuario_by_id.
  rewrite (filter_key_absent UsuarioModel.id _ i (usuario_id_spec i) _ Hno). reflexivity.
Qed.

Lemma usuario_email_found db u :
  db_wf db -> In u (usuarios db) ->
  usuario_by_email db (UsuarioModel.email u) = [u].
Proof.
  intros Hwf Hin. unfold usuario_by_email.
  apply (filter_key_unique UsuarioModel.email _ _ (usuario_email_spec _) _ u
           (wf_usuario_email db Hwf) Hin eq_refl).
Qed.

Lemma usuario_email_absent db e :
  (forall u, In u (usuarios db) -> UsuarioModel.email u <> e) ->
  usuario_by_email db e = [].
Proof.
  intros Hno. unfold usuario_by_email.
  apply (filter_key_absent UsuarioModel.email _ e (usuario_email_spec e) _ Hno).
Qed.

(** Replacing the row of a key in a table where keys are unique. *)
Section Replace.
Context {A : Type} (key : A -> Z).


Lemma replace_row_other (a' b : A) (l : list A) :
  In b l -> key b <> key a' -> In b (replace_row key a' l).
Proof.
  intros Hin Hk. unfold replace_row. apply in_map_iff. exists b.
  split; [|exact Hin]. apply Z.eqb_neq in Hk. rewrite Hk. reflexivity.
Qed.

Lemma replace_row_inv (a' b : A) (l : list A) :
  In b (replace_row key a' l) -> b = a' \/ (In b l /\ key b <> key a').
Proof.
  unfold replace_row. intros H. apply in_map_iff in H. destruct H as [r [Hr Hin]].
  destruct (key r =? key a') eqn:Hk.
  - left. symmetry. exact Hr.
  - right. subst b. split; [exact Hin | apply Z.eqb_neq; exact Hk].
Qed.

Lemma replace_row_keys (a' : A) (l : list A) :
  map key (replace_row key a' l) = map key l.
Proof.
  unfold replace_row. rewrite map_map. apply map_ext. intros r.
  destruct (key r =? key a') eqn:Hk; [|reflexivity].
  apply Z.eqb_eq in Hk. symmetry. exact Hk.
Qed.

End Replace.

(* ===================================================================== *)
(** * Articles *)
(* ===================================================================== *)

Section Articles.
Context {K : KeyedHash}.



Lemma put_artigo_absent i up u db :
  (forall a, In a (artigos db) -> ArtigoModel.id a <> i) ->
  put_artigo i up u db
  = (db, Raise (HTTPException HTTP_404_NOT_FOUND "Artigo não encontrado.")).
Proof. intros Hno. unfold put_artigo. rewrite (artigo_absent db i Hno). reflexivity. Qed.

Lemma delete_artigo_absent i u db :
  (forall a, In a (artigos db) -> ArtigoModel.id a <> i) ->
  delete_artigo i u db
  = (db, Raise (HTTPException HTTP_404_NOT_FOUND "Artigo não encontrado.")).
Proof. intros Hno. unfold delete_artigo. rewrite (artigo_absent db i Hno). reflexivity. Qed.




Lemma delete_artigo_owner u db a :
  db_wf db -> In a (artigos db) ->
  UsuarioModel.id u = ArtigoModel.usuario_id a ->
  delete_artigo (ArtigoModel.id a) u db
  = (delete_artigo_row db a,
     Ok {| status_code := HTTP_200_OK;
           body := message_content "Exclusão feita com sucesso." |}).
Proof.
  intros Hwf Hin Heq. unfold delete_artigo. rewrite (artigo_found db a Hwf Hin).
  rewrite Heq, Z.eqb_refl. reflexivity.
Qed.

Lemma delete_artigo_row_spec db a b :
  In b (artigos (delete_artigo_row db a))
  <-> In b (artigos db) /\ ArtigoModel.id b <> ArtigoModel.id a.
Proof.
  unfold delete_artigo_row. simpl. rewrite filter_In, negb_true_iff, Z.eqb_neq. tauto.
Qed.


End Articles.

Section ArticleFields.
Context {K : KeyedHash}.

Lemma apply_artigo_update_fields up a :
  let a' := apply_artigo_update up a in
  ArtigoModel.id a' = ArtigoModel.id a /\
  ArtigoModel.usuario_id a' = ArtigoModel.usuario_id a /\
  ArtigoModel.titulo a'
  = match ArtigoSchemaUp.titulo up with
    | Some (String c v) => String c v
    | _ => ArtigoModel.titulo a
    end /\
  ArtigoModel.descricao a'
  = match ArtigoSchemaUp.descricao up with
    | Some (String c v) => Some (String c v)
    | _ => ArtigoModel.descricao a
    end /\
  ArtigoModel.url_fonte a'
  = match ArtigoSchemaUp.url_fonte up with
    | Some url => Some (HttpUrl_str url)
    | None => ArtigoModel.url_fonte a
    end.
Proof.
  destruct up as [i [[|c1 t]|] [[|c2 d]|] [url|] o]; simpl; repeat split; reflexivity.
Qed.

Lemma put_artigo_keeps_keys i up u db :
  map (fun a => (ArtigoModel.id a, ArtigoModel.usuario_id a))
      (artigos (fst (put_artigo i up u db)))
  = map (fun a => (ArtigoModel.id a, ArtigoModel.usuario_id a)) (artigos db).
Proof.
  unfold put_artigo.
  destruct (one_or_none (artigo_by_id db i)) as [[a|]|e] eqn:Hq; try reflexivity.
  destruct (negb (UsuarioModel.id u =? ArtigoModel.usuario_id a)); [reflexivity|].
  simpl. unfold replace_row. rewrite map_map. apply map_ext_in. intros r Hr.
  destruct (apply_artigo_update_fields up a) as [Hid [Hown _]].
  destruct (ArtigoModel.id r =? ArtigoModel.id (apply_artigo_update up a)) eqn:Hk;
    [|reflexivity].
  apply Z.eqb_eq in Hk. rewrite Hid in Hk.
  apply one_or_none_some in Hq.
  assert (Ha : In a (artigo_by_id db i)) by (rewrite Hq; left; reflexivity).
  apply filter_In in Ha. destruct Ha as [_ Ha]. apply Z.eqb_eq in Ha.
  assert (Hr' : In r (artigo_by_id db i)).
  { apply filter_In. split; [exact Hr | apply Z.eqb_eq; congruence]. }
  rewrite Hq in Hr'. destruct Hr' as [<-|[]].
  rewrite Hid, Hown. reflexivity.
Qed.



Lemma NoDup_map_injective {A B : Type} (f : A -> B) (l : list A) (x y : A) :
  NoDup (map f l) -> In x l -> In y l -> f x = f y -> x = y.
Proof.
  induction l as [|z l IH]; simpl; intros Hnd Hx Hy Hf; [contradiction|].
  apply NoDup_cons_iff in Hnd. destruct Hnd as [Hz Hnd].
  destruct Hx as [Hx|Hx], Hy as [Hy|Hy].
  - congruence.
  - exfalso. apply Hz. rewrite Hx, Hf. apply in_map. exact Hy.
  - exfalso. apply Hz. rewrite Hy, <- Hf. apply in_map. exact Hx.
  - apply IH; assumption.
Qed.

Lemma apply_usuario_update_fields {CRIPTO : CryptContext} salt up u :
  let u' := apply_usuario_update salt up u in
  UsuarioModel.id u' = UsuarioModel.id u /\
  UsuarioModel.nome u'
  = match UsuarioSchemaUp.nome up with Some v => Some v | None => UsuarioModel.nome u end /\
  UsuarioModel.sobrenome u'
  = match UsuarioSchemaUp.sobrenome up with
    | Some v => Some v | None => UsuarioModel.sobrenome u end /\
  UsuarioModel.email u'
  = match UsuarioSchemaUp.email up with Some v => v | None => UsuarioModel.email u end /\
  UsuarioModel.admin u'
  = match UsuarioSchemaUp.admin up with Some v => Some v | None => UsuarioModel.admin u end /\
  UsuarioModel.senha u'
  = match UsuarioSchemaUp.senha up with
    | Some v => gerar_hash_senha salt v | None => UsuarioModel.senha u end.
Proof.
  destruct up as [i [n|] [s|] [e|] [p|] [ad|]]; simpl; repeat split; reflexivity.
Qed.



End ArticleFields.

(* ===================================================================== *)
(** * Users *)
(* ===================================================================== *)

Section Users.
Context {K : KeyedHash} {CRIPTO : CryptContext}.




Lemma delete_usuario_row_usuarios db u r :
  In r (usuarios (delete_usuario_row db u))
  <-> In r (usuarios db) /\ UsuarioModel.id r <> UsuarioModel.id u.
Proof.
  unfold delete_usuario_row. simpl. rewrite filter_In, negb_true_iff, Z.eqb_neq. tauto.
Qed.

Lemma delete_usuario_row_artigos db u a :
  In a (artigos (delete_usuario_row db u))
  <-> In a (artigos db) /\ ArtigoModel.usuario_id a <> UsuarioModel.id u.
Proof.
  unfold delete_usuario_row. simpl. rewrite filter_In, negb_true_iff, Z.eqb_neq. tauto.
Qed.


Lemma autenticar_unknown db email senha :
  (forall u, In u (usuarios db) -> UsuarioModel.email u <> email) ->
  autenticar db email senha = Ok None.
Proof.
  intros Hno. unfold autenticar. rewrite (usuario_email_absent db email Hno). reflexivity.
Qed.

Lemma autenticar_known db u senha :
  db_wf db -> In u (usuarios db) ->
  autenticar db (UsuarioModel.email u) senha
  = if verificar_senha senha (UsuarioModel.senha u) then Ok (Some u) else Ok None.
Proof.
  intros Hwf Hin. unfold autenticar. rewrite (usuario_email_found db u Hwf Hin). simpl.
  destruct (verificar_senha senha (UsuarioModel.senha u)); reflexivity.
Qed.

(** A token issued for the key of a stored user resolves to that user as
    long as it has not expired. *)
Lemma issued_token_resolves db u now_exp now_iat tipo_token tempo_vida now :
  db_wf db -> In u (usuarios db) ->
  timegm now <= timegm (now_exp + tempo_vida) ->
  get_current_user db now
    (signed (issued_claims now_exp now_iat tipo_token tempo_vida
               (SubInt (UsuarioModel.id u)))) = Ok u.
Proof.
  intros Hwf Hin Hle. unfold get_current_user, get_current_user_token_data.
  rewrite decode_issued.
  assert (Hlt : (timegm (now_exp + tempo_vida) <? timegm now) = false)
    by (apply Z.ltb_ge; exact Hle).
  rewrite Hlt. cbn [issued_claims dict_get String.eqb Ascii.eqb Bool.eqb TokenData bind str].
  rewrite int_str_int. cbn [bind]. rewrite (usuario_found db u Hwf Hin). reflexivity.
Qed.

(** C9.  A login with an e-mail that no stored user has, or with a
    password that does not verify against the stored hash of the user
    with that e-mail, is answered with 400; otherwise it is answered with
    200, token type ["bearer"], and an access token signed over claims
    whose subject is the decimal form of the key of that user: presented
    back, the token resolves to that user. *)
Theorem login_checks_credentials
  (now_exp now_iat : datetime) (form_data : OAuth2PasswordRequestForm.t) (db : Database) :
  db_wf db ->
  ((forall u, In u (usuarios db) ->
              UsuarioModel.email u <> OAuth2PasswordRequestForm.username form_data) ->
     login now_exp now_iat form_data db
     = Raise (HTTPException HTTP_400_BAD_REQUEST "Dados de acesso incorretos.")) /\
  (forall u, In u (usuarios db) ->
     UsuarioModel.email u = OAuth2PasswordRequestForm.username form_data ->
     (verificar_senha (OAuth2PasswordRequestForm.password form_data)
        (UsuarioModel.senha u) = false ->
      login now_exp now_iat form_data db
      = Raise (HTTPException HTTP_400_BAD_REQUEST "Dados de acesso incorretos.")) /\
     (verificar_senha (OAuth2PasswordRequestForm.password form_data)
        (UsuarioModel.senha u) = true ->
      exists cs,
        login now_exp now_iat form_data db
        = Ok {| status_code := HTTP_200_OK; body := token_content (signed cs) "bearer" |} /\
        dict_get "sub" cs = Some (JStr (Py.str_int (UsuarioModel.id u))) /\
        dict_get "type" cs = Some (JStr "access_token") /\
        jwt.decode (signed cs) settings.JWT_SECRET [settings.ALGORITHM] now_exp = Ok cs /\
        get_current_user db now_exp (signed cs) = Ok u)).
Proof.
  intros Hwf. split.
  - intros Hno. unfold login. rewrite (autenticar_unknown db _ _ Hno). reflexivity.
  - intros u Hin He. unfold login. rewrite <- He, (autenticar_known db u _ Hwf Hin). split.
    + intros Hv. rewrite Hv. reflexivity.
    + intros Hv. rewrite Hv. cbv beta iota delta [bind]. unfold criar_token_acesso.
      rewrite _criar_token_ok. cbv beta iota delta [bind]. eexists. split; [reflexivity|].
      split; [reflexivity|]. split; [reflexivity|].
      rewrite decode_issued.
      assert (Hlt : (timegm (now_exp + timedelta_minutes settings.ACCESS_TOKEN_EXPIRE_MINUTES)
                     <? timegm now_exp) = false).
      { apply Z.ltb_ge. apply timegm_monotone. unfold timedelta_minutes.
        unfold settings.ACCESS_TOKEN_EXPIRE_MINUTES. lia. }
      rewrite Hlt. split; [reflexivity|].
      apply issued_token_resolves; [exact Hwf | exact Hin|].
      apply Z.ltb_ge. exact Hlt.
Qed.

(** The commit of [put_usuario] is refused when another user holds the new
    e-mail; unlike in [post_usuario], the [IntegrityError] is not caught and
    nothing is written. *)
Lemma put_usuario_email_taken salt up u r db :
  db_wf db -> In u (usuarios db) -> In r (usuarios db) ->
  UsuarioModel.id r <> UsuarioModel.id u ->
  UsuarioSchemaUp.email up = Some (UsuarioModel.email r) ->
  put_usuario salt (UsuarioModel.id u) up db = (db, Raise IntegrityError).
Proof.
  intros Hwf Hu Hr Hne He. unfold put_usuario. rewrite (usuario_found db u Hwf Hu).
  unfold update_usuario.
  destruct (apply_usuario_update_fields salt up u) as [Hid [_ [_ [Hemail _]]]].
  rewrite He in Hemail.
  assert (Hex : existsb (fun x => negb (UsuarioModel.id x
                                        =? UsuarioModel.id (apply_usuario_update salt up u))
                                  && String.eqb (UsuarioModel.email x)
                                       (UsuarioModel.email (apply_usuario_update salt up u)))
                  (usuarios db) = true).
  { apply existsb_exists. exists r. split; [exact Hr|].
    rewrite Hid, Hemail, String.eqb_refl. apply Z.eqb_neq in Hne. rewrite Hne. reflexivity. }
  rewrite Hex. reflexivity.
Qed.


End Users.

(* ===================================================================== *)
(** * The schema constraints are an invariant *)
(* ===================================================================== *)

Lemma NoDup_snoc {A : Type} (l : list A) (x : A) :
  NoDup l -> ~ In x l -> NoDup (l ++ [x]).
Proof.
  induction l as [|y l IH]; simpl; intros Hnd Hx.
  - apply NoDup_cons; [intros [] | apply NoDup_nil].
  - apply NoDup_cons_iff in Hnd. destruct Hnd as [Hy Hnd].
    apply NoDup_cons.
    + intros Hin. apply in_app_or in Hin. destruct Hin as [Hin|[Heq|[]]].
      * apply Hy. exact Hin.
      * apply Hx. left. symmetry. exact Heq.
    + apply IH; [exact Hnd | intros Hin; apply Hx; right; exact Hin].
Qed.

Lemma NoDup_map_filter {A B : Type} (key : A -> B) (keep : A -> bool) (rows : list A) :
  NoDup (map key rows) -> NoDup (map key (filter keep rows)).
Proof.
  induction rows as [|x l IH]; simpl; intros Hnd; [apply NoDup_nil|].
  apply NoDup_cons_iff in Hnd. destruct Hnd as [Hx Hnd].
  destruct (keep x); simpl; [|apply IH; exact Hnd].
  apply NoDup_cons; [|apply IH; exact Hnd].
  intros Hin. apply Hx. apply in_map_iff in Hin. destruct Hin as [y [Hy Hin]].
  apply filter_In in Hin. rewrite <- Hy. apply in_map. tauto.
Qed.

Lemma replace_row_absent {A : Type} (key : A -> Z) (a' : A) (l : list A) :
  (forall x, In x l -> key x <> key a') -> replace_row key a' l = l.
Proof.
  induction l as [|x l IH]; simpl; intros Hno; [reflexivity|].
  assert (Hx : key x <> key a') by (apply Hno; left; reflexivity).
  apply Z.eqb_neq in Hx. rewrite Hx. f_equal. apply IH.
  intros y Hy. apply Hno. right. exact Hy.
Qed.

(** Rewriting one row keeps the e-mails distinct when no other row holds
    the new e-mail: the check of the UNIQUE index. *)
Lemma replace_row_email_NoDup (u : UsuarioModel.t) (l : list UsuarioModel.t) :
  NoDup (map UsuarioModel.id l) ->
  NoDup (map UsuarioModel.email l) ->
  (forall r, In r l -> UsuarioModel.id r <> UsuarioModel.id u ->
             UsuarioModel.email r <> UsuarioModel.email u) ->
  NoDup (map UsuarioModel.email (replace_row UsuarioModel.id u l)).
Proof.
  induction l as [|r l IH]; simpl; intros Hid Hem Hfree; [apply NoDup_nil|].
  apply NoDup_cons_iff in Hid. destruct Hid as [Hrid Hid].
  apply NoDup_cons_iff in Hem. destruct Hem as [Hrem Hem].
  destruct (UsuarioModel.id r =? UsuarioModel.id u) eqn:Hk.
  - apply Z.eqb_eq in Hk.
    assert (Hno : forall x, In x l -> UsuarioModel.id x <> UsuarioModel.id u).
    { intros x Hx Heq. apply Hrid. rewrite Hk, <- Heq. apply in_map. exact Hx. }
    fold (replace_row UsuarioModel.id u l).
    rewrite (replace_row_absent UsuarioModel.id u l Hno). simpl.
    apply NoDup_cons; [|exact Hem].
    intros Hin. apply in_map_iff in Hin. destruct Hin as [x [Hx Hin]].
    apply (Hfree x); [right; exact Hin | apply Hno; exact Hin | exact Hx].
  - apply Z.eqb_neq in Hk. simpl. fold (replace_row UsuarioModel.id u l).
    apply NoDup_cons.
    + intros Hin. apply in_map_iff in Hin. destruct Hin as [x [Hx Hin]].
      apply replace_row_inv in Hin. destruct Hin as [->|[Hin _]].
      * apply (Hfree r); [left; reflexivity | exact Hk | symmetry; exact Hx].
      * apply Hrem. rewrite <- Hx. apply in_map. exact Hin.
    + apply IH; [exact Hid | exact Hem|].
      intros x Hx. apply Hfree. right. exact Hx.
Qed.

Lemma insert_usuario_wf db nome sobrenome email senha admin :
  db_wf db -> db_wf (fst (insert_usuario db nome sobrenome email senha admin)).
Proof.
  intros [Hpk Hem Hseq Hapk Haseq Hfk]. unfold insert_usuario.
  destruct (existsb _ (usuarios db)) eqn:Hex; simpl.
  - constructor; simpl; try assumption.
    intros u Hu. apply Hseq in Hu. lia.
  - pose proof (proj1 (existsb_false _ _) Hex) as Hno.
    constructor; simpl; try assumption.
    + rewrite map_app. simpl. apply NoDup_snoc; [exact Hpk|].
      intros Hin. apply in_map_iff in Hin. destruct Hin as [u [Hu Hin]].
      apply Hseq in Hin. lia.
    + rewrite map_app. simpl. apply NoDup_snoc; [exact Hem|].
      intros Hin. apply in_map_iff in Hin. destruct Hin as [u [Hu Hin]].
      apply Hno in Hin. apply orb_false_iff in Hin. destruct Hin as [_ Hne].
      apply String.eqb_neq in Hne. apply Hne. exact Hu.
    + intros u Hu. apply in_app_or in Hu. destruct Hu as [Hu|[<-|[]]].
      * apply Hseq in Hu. lia.
      * simpl. lia.
    + intros a Ha. rewrite map_app. apply in_or_app. left. apply Hfk. exact Ha.
Qed.

Lemma update_usuario_wf db u :
  db_wf db -> db_wf (fst (update_usuario db u)).
Proof.
  intros Hwf. unfold update_usuario.
  destruct (existsb _ (usuarios db)) eqn:Hex; simpl; [exact Hwf|].
  pose proof (proj1 (existsb_false _ _) Hex) as Hno.
  destruct Hwf as [Hpk Hem Hseq Hapk Haseq Hfk].
  constructor; simpl; try assumption.
  - rewrite replace_row_keys. exact Hpk.
  - apply replace_row_email_NoDup; [exact Hpk | exact Hem|].
    intros r Hr Hne. apply Hno in Hr. apply andb_false_iff in Hr.
    destruct Hr as [Hr|Hr].
    + apply negb_false_iff, Z.eqb_eq in Hr. contradiction.
    + apply String.eqb_neq. exact Hr.
  - intros x Hx. apply (in_map UsuarioModel.id) in Hx. rewrite replace_row_keys in Hx.
    apply in_map_iff in Hx. destruct Hx as [y [Hy Hin]]. rewrite <- Hy. apply Hseq. exact Hin.
  - intros a Ha. rewrite replace_row_keys. apply Hfk. exact Ha.
Qed.

Lemma delete_usuario_row_wf db u :
  db_wf db -> db_wf (delete_usuario_row db u).
Proof.
  intros [Hpk Hem Hseq Hapk Haseq Hfk]. constructor; simpl.
  - apply NoDup_map_filter. exact Hpk.
  - apply NoDup_map_filter. exact Hem.
  - intros r Hr. apply filter_In in Hr. apply Hseq. tauto.
  - apply NoDup_map_filter. exact Hapk.
  - intros a Ha. apply filter_In in Ha. apply Haseq. tauto.
  - intros a Ha. apply filter_In in Ha. destruct Ha as [Ha Hne].
    apply Hfk in Ha. apply in_map_iff in Ha. destruct Ha as [w [Hw Hin]].
    apply in_map_iff. exists w. split; [exact Hw|].
    apply filter_In. split; [exact Hin|]. rewrite Hw. exact Hne.
Qed.

Lemma insert_artigo_wf db titulo descricao url_fonte usuario_id :
  db_wf db -> db_wf (fst (insert_artigo db titulo descricao url_fonte usuario_id)).
Proof.
  intros [Hpk Hem Hseq Hapk Haseq Hfk]. unfold insert_artigo.
  destruct (existsb _ (artigos db) || _) eqn:Hex; simpl.
  - constructor; simpl; try assumption.
    intros a Ha. apply Haseq in Ha. lia.
  - apply orb_false_iff in Hex. destruct Hex as [_ Hown].
    apply negb_false_iff, existsb_exists in Hown. destruct Hown as [w [Hw Hk]].
    apply Z.eqb_eq in Hk.
    constructor; simpl; try assumption.
    + rewrite map_app. simpl. apply NoDup_snoc; [exact Hapk|].
      intros Hin. apply in_map_iff in Hin. destruct Hin as [a [Ha Hin]].
      apply Haseq in Hin. lia.
    + intros a Ha. apply in_app_or in Ha. destruct Ha as [Ha|[<-|[]]].
      * apply Haseq in Ha. lia.
      * simpl. lia.
    + intros a Ha. apply in_app_or in Ha. destruct Ha as [Ha|[<-|[]]].
      * apply Hfk. exact Ha.
      * simpl. rewrite <- Hk. apply in_map. exact Hw.
Qed.

Lemma delete_artigo_row_wf db a :
  db_wf db -> db_wf (delete_artigo_row db a).
Proof.
  intros [Hpk Hem Hseq Hapk Haseq Hfk]. constructor; simpl; try assumption.
  - apply NoDup_map_filter. exact Hapk.
  - intros b Hb. apply filter_In in Hb. apply Haseq. tauto.
  - intros b Hb. apply filter_In in Hb. apply Hfk. tauto.
Qed.

Section Invariant.
Context {K : KeyedHash} {CRIPTO : CryptContext}.

Lemma post_usuario_wf salt usuario db :
  db_wf db -> db_wf (fst (post_usuario salt usuario db)).
Proof.
  intros Hwf. unfold post_usuario.
  match goal with
  | |- context [insert_usuario db ?n ?s ?e ?p ?a] =>
      pose proof (insert_usuario_wf db n s e p a Hwf) as Hi;
      destruct (insert_usuario db n s e p a) as [db' [novo|[]]]
  end; exact Hi.
Qed.

Lemma put_usuario_wf salt i up db :
  db_wf db -> db_wf (fst (put_usuario salt i up db)).
Proof.
  intros Hwf. unfold put_usuario.
  destruct (one_or_none (usuario_by_id db i)) as [[u|]|e]; try exact Hwf.
  pose proof (update_usuario_wf db (apply_usuario_update salt up u) Hwf) as Hu.
  destruct (update_usuario db (apply_usuario_update salt up u)) as [db' [[]|e]]; exact Hu.
Qed.

Lemma delete_usuario_wf i db :
  db_wf db -> db_wf (fst (delete_usuario i db)).
Proof.
  intros Hwf. unfold delete_usuario.
  destruct (one_or_none (usuario_by_id db i)) as [[u|]|e]; try exact Hwf.
  apply delete_usuario_row_wf. exact Hwf.
Qed.

Lemma post_artigo_wf artigo u db :
  db_wf db -> db_wf (fst (post_artigo artigo u db)).
Proof.
  intros Hwf. unfold post_artigo.
  match goal with
  | |- context [insert_artigo db ?t ?d ?l ?o] =>
      pose proof (insert_artigo_wf db t d l o Hwf) as Hi;
      destruct (insert_artigo db t d l o) as [db' [novo|e]]
  end; exact Hi.
Qed.

Lemma put_artigo_frame i up u db :
  usuarios (fst (put_artigo i up u db)) = usuarios db /\
  usuarios_id_seq (fst (put_artigo i up u db)) = usuarios_id_seq db /\
  artigos_id_seq (fst (put_artigo i up u db)) = artigos_id_seq db.
Proof.
  unfold put_artigo.
  destruct (one_or_none (artigo_by_id db i)) as [[a|]|e]; try (repeat split; reflexivity).
  destruct (negb (UsuarioModel.id u =? ArtigoModel.usuario_id a)); repeat split; reflexivity.
Qed.

Lemma put_artigo_wf i up u db :
  db_wf db -> db_wf (fst (put_artigo i up u db)).
Proof.
  intros [Hpk Hem Hseq Hapk Haseq Hfk].
  destruct (put_artigo_frame i up u db) as [Hu [Hs1 Hs2]].
  pose proof (put_artigo_keeps_keys i up u db) as Hkeys.
  assert (Hids : map ArtigoModel.id (artigos (fst (put_artigo i up u db)))
                 = map ArtigoModel.id (artigos db)).
  { apply (f_equal (map fst)) in Hkeys. rewrite !map_map in Hkeys. exact Hkeys. }
  assert (Hrow : forall b, In b (artigos (fst (put_artigo i up u db))) ->
                 exists a, In a (artigos db) /\ ArtigoModel.id a = ArtigoModel.id b /\
                           ArtigoModel.usuario_id a = ArtigoModel.usuario_id b).
  { intros b Hb.
    apply (in_map (fun a => (ArtigoModel.id a, ArtigoModel.usuario_id a))) in Hb.
    rewrite Hkeys in Hb. apply in_map_iff in Hb. destruct Hb as [a [Ha Hin]].
    inversion Ha. exists a. auto. }
  constructor.
  - rewrite Hu. exact Hpk.
  - rewrite Hu. exact Hem.
  - rewrite Hu, Hs1. exact Hseq.
  - rewrite Hids. exact Hapk.
  - intros b Hb. destruct (Hrow b Hb) as [a [Ha [Hid _]]]. rewrite Hs2, <- Hid.
    apply Haseq. exact Ha.
  - intros b Hb. destruct (Hrow b Hb) as [a [Ha [_ Hown]]]. rewrite Hu, <- Hown.
    apply Hfk. exact Ha.
Qed.

Lemma delete_artigo_wf i u db :
  db_wf db -> db_wf (fst (delete_artigo i u db)).
Proof.
  intros Hwf. unfold delete_artigo.
  destruct (one_or_none (artigo_by_id db i)) as [[a|]|e]; try exact Hwf.
  destruct (negb (ArtigoModel.usuario_id a =? UsuarioModel.id u)); [exact Hwf|].
  apply delete_artigo_row_wf. exact Hwf.
Qed.

Lemma Depends_wf (handler : UsuarioModel.t -> Database -> Database * Result Response)
  db now authorization :
  (forall u d, db_wf d -> db_wf (fst (handler u d))) ->
  db_wf db -> db_wf (fst (Depends_get_current_user handler db now authorization)).
Proof.
  intros Hh Hwf. unfold Depends_get_current_user.
  destruct (tok <- oauth2_schema authorization ;; get_current_user db now tok) as [u|e];
    [apply Hh; exact Hwf | exact Hwf].
Qed.

(** Every request leaves a database that satisfies the constraints of the
    schema in such a state. *)
Lemma serve_wf r db : db_wf db -> db_wf (fst (serve r db)).
Proof.
  intros Hwf. destruct r; simpl.
  - apply post_usuario_wf. exact Hwf.
  - apply put_usuario_wf. exact Hwf.
  - apply delete_usuario_wf. exact Hwf.
  - apply Depends_wf; [intros u d; apply post_artigo_wf | exact Hwf].
  - apply Depends_wf; [intros u d; apply put_artigo_wf | exact Hwf].
  - apply Depends_wf; [intros u d; apply delete_artigo_wf | exact Hwf].
Qed.

Lemma empty_db_wf : db_wf empty_db.
Proof.
  constructor; simpl; try apply NoDup_nil; intros x [].
Qed.

(** Whatever requests were served since the tables were created, the
    database satisfies the constraints. *)
Lemma run_wf rs : forall db, db_wf db -> db_wf (run rs db).
Proof.
  induction rs as [|r rs IH]; simpl; intros db Hwf; [exact Hwf|].
  apply IH. apply serve_wf. exact Hwf.
Qed.

Lemma reachable_wf rs : db_wf (run rs empty_db).
Proof. apply run_wf. apply empty_db_wf. Qed.

End Invariant.

(* ===================================================================== *)
(** * The handlers on a concrete database *)
(* ===================================================================== *)

Ltac nodup_by_computation :=
  repeat (apply NoDup_cons; [simpl; intuition discriminate|]);
  apply NoDup_nil.

Lemma demo_db_wf : db_wf Demo.db.
Proof.
  constructor; simpl.
  - nodup_by_computation.
  - nodup_by_computation.
  - intros u [<-|[<-|[]]]; reflexivity.
  - nodup_by_computation.
  - intros a [<-|[<-|[]]]; reflexivity.
  - intros a [<-|[<-|[]]]; simpl; auto.
Defined.



Lemma demo_ana_resolved :
  get_current_user (K := Demo.keyed_hash) Demo.db 1500000000 Demo.token_ana = Ok Demo.ana.
Proof. reflexivity. Defined.


(** C3 as stated fails at the expiry instant: the token issued at second
    1000 for 1000 seconds is still accepted at second 2000 and until the
    end of that second. *)
Lemma token_accepted_at_expiry_instant :
  _criar_token (K := Demo.keyed_hash) 1000000000 1000000000 "access_token" 1000000000
    (SubInt 1) = Ok Demo.token_ana /\
  jwt.decode (K := Demo.keyed_hash) Demo.token_ana settings.JWT_SECRET [settings.ALGORITHM]
    (1000000000 + 1000000000)
  = Ok (issued_claims 1000000000 1000000000 "access_token" 1000000000 (SubInt 1)) /\
  jwt.decode (K := Demo.keyed_hash) Demo.token_ana settings.JWT_SECRET [settings.ALGORITHM]
    (1000000000 + 1000000000 + 999999)
  = Ok (issued_claims 1000000000 1000000000 "access_token" 1000000000 (SubInt 1)).
Proof. repeat split; reflexivity. Qed.

Lemma issued_token_validity_window_witness :
  jwt.decode (K := Demo.keyed_hash) Demo.token_ana settings.JWT_SECRET [settings.ALGORITHM]
    1999999999
  = Ok (issued_claims 1000000000 1000000000 "access_token" 1000000000 (SubInt 1)) /\
  jwt.decode (K := Demo.keyed_hash) Demo.token_ana settings.JWT_SECRET [settings.ALGORITHM]
    2001000000
  = Raise (JWTError "Signature has expired.").
Proof.
  pose proof (issued_token_validity_window (K := Demo.keyed_hash)
                (SubInt 1) 1000000000 1000000000 1000000000 1999999999)
    as [_ [_ [_ [Hbefore _]]]].
  pose proof (issued_token_validity_window (K := Demo.keyed_hash)
                (SubInt 1) 1000000000 1000000000 1000000000 2001000000)
    as [_ [_ [_ [_ [Hafter _]]]]].
  split; [apply Hbefore; reflexivity | apply Hafter; reflexivity].
Defined.







Lemma login_checks_credentials_witness :
  db_wf Demo.db /\
  login (K := Demo.keyed_hash) (CRIPTO := Demo.crypt_context) 1000000000 1000000000
    (OAuth2PasswordRequestForm.mk "ana@x.com" "wrong") Demo.db
  = Raise (HTTPException HTTP_400_BAD_REQUEST "Dados de acesso incorretos.") /\
  exists cs,
    login (K := Demo.keyed_hash) (CRIPTO := Demo.crypt_context) 1000000000 1000000000
      (OAuth2PasswordRequestForm.mk "ana@x.com" "pw1") Demo.db
    = Ok {| status_code := HTTP_200_OK;
            body := token_content (signed (K := Demo.keyed_hash) cs) "bearer" |} /\
    dict_get "sub" cs = Some (JStr "1").
Proof.
  split; [exact demo_db_wf|].
  pose proof (login_checks_credentials (K := Demo.keyed_hash) (CRIPTO := Demo.crypt_context)
                1000000000 1000000000 (OAuth2PasswordRequestForm.mk "ana@x.com" "wrong")
                Demo.db demo_db_wf) as [_ Hbad].
  pose proof (login_checks_credentials (K := Demo.keyed_hash) (CRIPTO := Demo.crypt_context)
                1000000000 1000000000 (OAuth2PasswordRequestForm.mk "ana@x.com" "pw1")
                Demo.db demo_db_wf) as [_ Hgood].
  split.
  - refine (proj1 (Hbad Demo.ana _ eq_refl) eq_refl). simpl. left. reflexivity.
  - destruct (proj2 (Hgood Demo.ana (or_introl eq_refl) eq_refl) eq_refl)
      as [cs [Hl [Hs _]]].
    exists cs. split; [exact Hl | exact Hs].
Defined.


(** The scenario of a first user: signup, login, the logged user, and a
    login with a wrong password. *)
Example signup_login_logged :
  let signup := post_usuario (CRIPTO := Demo.crypt_context) "salt"
                  (UsuarioSchemaCreate.mk None "A" "X" "a@x.com" false "pw1") empty_db in
  let db := fst signup in
  let login_as senha := login (K := Demo.keyed_hash) (CRIPTO := Demo.crypt_context)
                          1000000000 1000000000
                          (OAuth2PasswordRequestForm.mk "a@x.com" senha) db in
  http_status (snd signup) = HTTP_201_CREATED /\
  (exists tok u,
      login_as "pw1" = Ok {| status_code := HTTP_200_OK; body := token_content tok "bearer" |} /\
      GET_usuarios_logado (K := Demo.keyed_hash) db 1000000001 (Some tok)
      = (db, Ok {| status_code := HTTP_200_OK; body := usuario_content u |}) /\
      UsuarioModel.email u = "a@x.com") /\
  http_status (login_as "pw2") = HTTP_400_BAD_REQUEST.
Proof.
  cbv zeta. split; [reflexivity|]. split; [|reflexivity].
  eexists. eexists. split; [reflexivity|]. split; reflexivity.
Qed.

Example int_examples :
  Py.int "42" = Ok 42 /\ Py.int "  -7 " = Ok (-7) /\ Py.int "1_000" = Ok 1000 /\
  Py.int "007" = Ok 7 /\ Py.int "" = Raise ValueError /\ Py.int "abc" = Raise ValueError /\
  Py.int "1__0" = Raise ValueError /\ Py.int "+ 1" = Raise ValueError /\
  Py.str_int (-35) = "-35".
Proof. repeat split; reflexivity. Qed.

(* ===================================================================== *)
(** * Reading back what was written *)
(* ===================================================================== *)



Lemma get_artigo_found db a :
  db_wf db -> In a (artigos db) -> get_artigo (ArtigoModel.id a) db = Ok a.
Proof.
  intros Hwf Hin. unfold get_artigo. rewrite (artigo_found db a Hwf Hin). reflexivity.
Qed.

Lemma get_artigo_absent db i :
  (forall a, In a (artigos db) -> ArtigoModel.id a <> i) ->
  get_artigo i db = Raise (HTTPException HTTP_404_NOT_FOUND "Artigo não encontrado.").
Proof.
  intros Hno. unfold get_artigo. rewrite (artigo_absent db i Hno). reflexivity.
Qed.



Lemma get_usuario_found db u :
  db_wf db -> In u (usuarios db) ->
  get_usuario (UsuarioModel.id u) db = Ok (u, UsuarioModel_artigos db u).
Proof.
  intros Hwf Hin. unfold get_usuario. rewrite (usuario_found db u Hwf Hin). reflexivity.
Qed.

Lemma get_usuario_absent db i :
  (forall u, In u (usuarios db) -> UsuarioModel.id u <> i) ->
  get_usuario i db = Raise (HTTPException HTTP_404_NOT_FOUND "Usuário não encontrado.").
Proof.
  intros Hno. unfold get_usuario. rewrite (usuario_absent db i Hno). reflexivity.
Qed.










(** X5.  Once its owner has deleted an article, the article is gone for
    good on that database: GET, PUT and DELETE on its key all answer 404,
    whoever asks, while every other article is still returned under its
    key. *)
Theorem artigo_deleted_then_gone (u : UsuarioModel.t) (a : ArtigoModel.t) (db : Database) :
  db_wf db -> In a (artigos db) ->
  UsuarioModel.id u = ArtigoModel.usuario_id a ->
  let db' := fst (delete_artigo (ArtigoModel.id a) u db) in
  get_artigo (ArtigoModel.id a) db'
  = Raise (HTTPException HTTP_404_NOT_FOUND "Artigo não encontrado.") /\
  (forall v up, put_artigo (ArtigoModel.id a) up v db'
                = (db', Raise (HTTPException HTTP_404_NOT_FOUND "Artigo não encontrado."))) /\
  (forall v, delete_artigo (ArtigoModel.id a) v db'
             = (db', Raise (HTTPException HTTP_404_NOT_FOUND "Artigo não encontrado."))) /\
  (forall b, In b (artigos db) -> ArtigoModel.id b <> ArtigoModel.id a ->
             get_artigo (ArtigoModel.id b) db' = Ok b).
Proof.
  intros Hwf Ha Ho db'.
  pose proof (delete_artigo_owner u db a Hwf Ha Ho) as Hdel.
  assert (Hdb : db' = delete_artigo_row db a) by (unfold db'; rewrite Hdel; reflexivity).
  assert (Hno : forall b, In b (artigos db') -> ArtigoModel.id b <> ArtigoModel.id a).
  { intros b Hb. rewrite Hdb in Hb. apply delete_artigo_row_spec in Hb. tauto. }
  split; [apply get_artigo_absent; exact Hno|].
  split; [intros v up; apply put_artigo_absent; exact Hno|].
  split; [intros v; apply delete_artigo_absent; exact Hno|].
  intros b Hb Hne. apply get_artigo_found.
  - rewrite Hdb. apply delete_artigo_row_wf. exact Hwf.
  - rewrite Hdb. apply delete_artigo_row_spec. tauto.
Qed.

Lemma artigo_deleted_then_gone_witness :
  db_wf Demo.db /\ In Demo.artigo_ana (artigos Demo.db) /\
  get_artigo 1 (fst (delete_artigo 1 Demo.ana Demo.db))
  = Raise (HTTPException HTTP_404_NOT_FOUND "Artigo não encontrado.") /\
  get_artigo 2 (fst (delete_artigo 1 Demo.ana Demo.db)) = Ok Demo.artigo_bia.
Proof.
  split; [exact demo_db_wf|].
  assert (Hin : In Demo.artigo_ana (artigos Demo.db)) by (simpl; left; reflexivity).
  split; [exact Hin|].
  pose proof (artigo_deleted_then_gone Demo.ana Demo.artigo_ana Demo.db
                demo_db_wf Hin eq_refl) as [H404 [_ [_ Hother]]].
  split; [exact H404|].
  apply (Hother Demo.artigo_bia); [simpl; right; left; reflexivity | simpl; discriminate].
Defined.

(* ===================================================================== *)
(** * What a request leaves untouched *)
(* ===================================================================== *)

Section Frames.
Context {K : KeyedHash} {CRIPTO : CryptContext}.

Lemma Depends_preserves {A : Type} (P : Database -> Prop)
  (handler : UsuarioModel.t -> Database -> Database * Result A) db now authorization :
  (forall u d, P d -> P (fst (handler u d))) ->
  P db -> P (fst (Depends_get_current_user handler db now authorization)).
Proof.
  intros Hh HP. unfold Depends_get_current_user.
  destruct (tok <- oauth2_schema authorization ;; get_current_user db now tok) as [u|e];
    [apply Hh; exact HP | exact HP].
Qed.

Lemma post_usuario_frame salt usuario db :
  artigos (fst (post_usuario salt usuario db)) = artigos db /\
  artigos_id_seq (fst (post_usuario salt usuario db)) = artigos_id_seq db.
Proof.
  unfold post_usuario, insert_usuario.
  destruct (existsb _ (usuarios db)); split; reflexivity.
Qed.

Lemma put_usuario_frame salt i up db :
  artigos (fst (put_usuario salt i up db)) = artigos db /\
  artigos_id_seq (fst (put_usuario salt i up db)) = artigos_id_seq db /\
  usuarios_id_seq (fst (put_usuario salt i up db)) = usuarios_id_seq db /\
  map UsuarioModel.id (usuarios (fst (put_usuario salt i up db)))
  = map UsuarioModel.id (usuarios db).
Proof.
  unfold put_usuario.
  destruct (one_or_none (usuario_by_id db i)) as [[u|]|e]; try (repeat split; reflexivity).
  unfold update_usuario. destruct (existsb _ (usuarios db)); simpl.
  - repeat split; reflexivity.
  - repeat split; try reflexivity. apply replace_row_keys.
Qed.

Lemma post_artigo_frame artigo u db :
  usuarios (fst (post_artigo artigo u db)) = usuarios db /\
  usuarios_id_seq (fst (post_artigo artigo u db)) = usuarios_id_seq db.
Proof.
  unfold post_artigo, insert_artigo.
  destruct (existsb _ (artigos db) || _); split; reflexivity.
Qed.

Lemma delete_artigo_frame i u db :
  usuarios (fst (delete_artigo i u db)) = usuarios db /\
  usuarios_id_seq (fst (delete_artigo i u db)) = usuarios_id_seq db.
Proof.
  unfold delete_artigo.
  destruct (one_or_none (artigo_by_id db i)) as [[a|]|e]; try (split; reflexivity).
  destruct (negb (ArtigoModel.usuario_id a =? UsuarioModel.id u)); split; reflexivity.
Qed.

(** The user table and its sequence are out of reach of the article
    routes. *)
Lemma artigo_routes_keep_usuarios r db :
  match r with
  | POST_artigos_req _ _ _ | PUT_artigos_req _ _ _ _ | DELETE_artigos_req _ _ _ =>
      usuarios (fst (serve r db)) = usuarios db /\
      usuarios_id_seq (fst (serve r db)) = usuarios_id_seq db
  | _ => True
  end.
Proof.
  destruct r as [| | |now auth artigo|now auth i up|now auth i]; simpl; try exact I.
  - apply (Depends_preserves
             (fun d => usuarios d = usuarios db /\ usuarios_id_seq d = usuarios_id_seq db));
      [|split; reflexivity].
    intros u d [H1 H2]. destruct (post_artigo_frame artigo u d) as [H3 H4].
    split; congruence.
  - apply (Depends_preserves
             (fun d => usuarios d = usuarios db /\ usuarios_id_seq d = usuarios_id_seq db));
      [|split; reflexivity].
    intros u d [H1 H2]. destruct (put_artigo_frame i up u d) as [H3 [H4 _]].
    split; congruence.
  - apply (Depends_preserves
             (fun d => usuarios d = usuarios db /\ usuarios_id_seq d = usuarios_id_seq db));
      [|split; reflexivity].
    intros u d [H1 H2]. destruct (delete_artigo_frame i u d) as [H3 H4].
    split; congruence.
Qed.

(** An invariant of every request is an invariant of every run. *)
Lemma run_preserves (P : Database -> Prop) :
  (forall r db, P db -> P (fst (serve r db))) ->
  forall rs db, P db -> P (run rs db).
Proof.
  intros Hstep rs. induction rs as [|r rs IH]; simpl; intros db HP; [exact HP|].
  apply IH. apply Hstep. exact HP.
Qed.

(** X6.  An article stays in the table as it is unless its owner acts: if
    a stored article is no longer in the table after a request (removed or
    rewritten), then the request was a PUT or a DELETE on the key of the
    article carrying a token that resolves to the user whose key is the
    [usuario_id] of the article, or it was the deletion of that user.  No
    signup, user update, article creation, or request by anybody else
    touches it. *)
Theorem artigo_changes_need_owner (r : request) (db : Database) (a : ArtigoModel.t) :
  In a (artigos db) ->
  ~ In a (artigos (fst (serve r db))) ->
  match r with
  | DELETE_usuarios i => i = ArtigoModel.usuario_id a
  | PUT_artigos_req now auth i _ =>
      i = ArtigoModel.id a /\
      exists tok u, auth = Some tok /\ get_current_user db now tok = Ok u /\
                    UsuarioModel.id u = ArtigoModel.usuario_id a
  | DELETE_artigos_req now auth i =>
      i = ArtigoModel.id a /\
      exists tok u, auth = Some tok /\ get_current_user db now tok = Ok u /\
                    UsuarioModel.id u = ArtigoModel.usuario_id a
  | POST_usuarios_signup _ _ | PUT_usuarios _ _ _ | POST_artigos_req _ _ _ => False
  end.
Proof.
  intros Ha Hgone.
  assert (Hsame : forall i b, one_or_none (artigo_by_id db i) = Ok (Some b) ->
                  ArtigoModel.id a = i -> a = b /\ ArtigoModel.id b = i).
  { intros i b Hq Hid. apply one_or_none_some in Hq.
    assert (Hin : In a (artigo_by_id db i)).
    { apply filter_In. split; [exact Ha | apply Z.eqb_eq; exact Hid]. }
    rewrite Hq in Hin. destruct Hin as [<-|[]]. split; [reflexivity | exact Hid]. }
  destruct r as [salt usuario|salt i up|i|now auth artigo|now auth i up|now auth i];
    simpl in Hgone.
  - apply Hgone. rewrite (proj1 (post_usuario_frame salt usuario db)). exact Ha.
  - apply Hgone. rewrite (proj1 (put_usuario_frame salt i up db)). exact Ha.
  - unfold delete_usuario in Hgone.
    destruct (one_or_none (usuario_by_id db i)) as [[u|]|e] eqn:Hq;
      try (exfalso; apply Hgone; exact Ha).
    simpl in Hgone. apply one_or_none_some in Hq.
    assert (Hu : In u (usuario_by_id db i)) by (rewrite Hq; left; reflexivity).
    apply filter_In in Hu. destruct Hu as [_ Hu]. apply Z.eqb_eq in Hu. subst i.
    destruct (Z.eq_dec (ArtigoModel.usuario_id a) (UsuarioModel.id u)) as [Heq|Hne];
      [symmetry; exact Heq|].
    exfalso. apply Hgone. apply filter_In. split; [exact Ha|].
    apply negb_true_iff, Z.eqb_neq. exact Hne.
  - unfold POST_artigos, Depends_get_current_user in Hgone.
    destruct (tok <- oauth2_schema auth ;; get_current_user db now tok) as [u|e];
      [|apply Hgone; exact Ha].
    apply Hgone. unfold post_artigo, insert_artigo.
    destruct (existsb _ (artigos db) || _); simpl; [exact Ha|].
    apply in_or_app. left. exact Ha.
  - unfold PUT_artigos, Depends_get_current_user in Hgone.
    destruct auth as [tok|]; [|exfalso; apply Hgone; exact Ha].
    cbv beta iota delta [oauth2_schema bind] in Hgone.
    destruct (get_current_user db now tok) as [u|e] eqn:Hg;
      [|exfalso; apply Hgone; exact Ha].
    unfold put_artigo in Hgone.
    destruct (one_or_none (artigo_by_id db i)) as [[b|]|e] eqn:Hq;
      try (exfalso; apply Hgone; exact Ha).
    destruct (UsuarioModel.id u =? ArtigoModel.usuario_id b) eqn:Ho;
      simpl in Hgone; [|exfalso; apply Hgone; exact Ha].
    apply Z.eqb_eq in Ho.
    destruct (apply_artigo_update_fields up b) as [Hid _].
    destruct (Z.eq_dec (ArtigoModel.id a) i) as [Hai|Hai].
    + destruct (Hsame i b Hq Hai) as [<- _].
      split; [symmetry; exact Hai|]. exists tok, u. auto.
    + exfalso. apply Hgone. apply replace_row_other; [exact Ha|].
      rewrite Hid. apply one_or_none_some in Hq.
      assert (Hb : In b (artigo_by_id db i)) by (rewrite Hq; left; reflexivity).
      apply filter_In in Hb. destruct Hb as [_ Hb]. apply Z.eqb_eq in Hb. congruence.
  - unfold DELETE_artigos, Depends_get_current_user in Hgone.
    destruct auth as [tok|]; [|exfalso; apply Hgone; exact Ha].
    cbv beta iota delta [oauth2_schema bind] in Hgone.
    destruct (get_current_user db now tok) as [u|e] eqn:Hg;
      [|exfalso; apply Hgone; exact Ha].
    unfold delete_artigo in Hgone.
    destruct (one_or_none (artigo_by_id db i)) as [[b|]|e] eqn:Hq;
      try (exfalso; apply Hgone; exact Ha).
    destruct (ArtigoModel.usuario_id b =? UsuarioModel.id u) eqn:Ho;
      simpl in Hgone; [|exfalso; apply Hgone; exact Ha].
    apply Z.eqb_eq in Ho.
    destruct (Z.eq_dec (ArtigoModel.id a) i) as [Hai|Hai].
    + destruct (Hsame i b Hq Hai) as [<- _].
      split; [symmetry; exact Hai|]. exists tok, u. auto.
    + exfalso. apply Hgone. apply filter_In. split; [exact Ha|].
      apply negb_true_iff, Z.eqb_neq. apply one_or_none_some in Hq.
      assert (Hb : In b (artigo_by_id db i)) by (rewrite Hq; left; reflexivity).
      apply filter_In in Hb. destruct Hb as [_ Hb]. apply Z.eqb_eq in Hb. congruence.
Qed.

End Frames.

Lemma artigo_changes_need_owner_witness :
  In Demo.artigo_ana (artigos Demo.db) /\
  ~ In Demo.artigo_ana
      (artigos (fst (serve (K := Demo.keyed_hash) (CRIPTO := Demo.crypt_context)
                       (DELETE_artigos_req 1500000000 (Some Demo.token_ana) 1) Demo.db))) /\
  exists tok u,
    Some Demo.token_ana = Some tok /\
    get_current_user (K := Demo.keyed_hash) Demo.db 1500000000 tok = Ok u /\
    UsuarioModel.id u = 1.
Proof.
  assert (Hin : In Demo.artigo_ana (artigos Demo.db)) by (simpl; left; reflexivity).
  assert (Hgone : ~ In Demo.artigo_ana
      (artigos (fst (serve (K := Demo.keyed_hash) (CRIPTO := Demo.crypt_context)
                       (DELETE_artigos_req 1500000000 (Some Demo.token_ana) 1) Demo.db)))).
  { intros [H|[]]. discriminate H. }
  split; [exact Hin|]. split; [exact Hgone|].
  exact (proj2 (artigo_changes_need_owner (K := Demo.keyed_hash)
                  (CRIPTO := Demo.crypt_context)
                  (DELETE_artigos_req 1500000000 (Some Demo.token_ana) 1)
                  Demo.db Demo.artigo_ana Hin Hgone)).
Defined.

(* ===================================================================== *)
(** * Who a token resolves to *)
(* ===================================================================== *)

Section Resolving.
Context {K : KeyedHash} {CRIPTO : CryptContext}.



End Resolving.



(* ===================================================================== *)
(** * The life of an access token *)
(* ===================================================================== *)

Section TokenLife.
Context {K : KeyedHash} {CRIPTO : CryptContext}.

Lemma access_token_expiry (t : datetime) :
  timegm (t + timedelta_minutes settings.ACCESS_TOKEN_EXPIRE_MINUTES) = timegm t + 604800.
Proof.
  unfold timegm, timedelta_minutes, settings.ACCESS_TOKEN_EXPIRE_MINUTES.
  replace (t + 60 * 24 * 7 * 60 * 1000000) with (t + 604800 * 1000000) by lia.
  apply Z.div_add. lia.
Qed.

(** X9.  The access token made for a stored user carries as expiry the
    second it was made in plus 604800 (seven days) and as issued-at the
    second of the second clock reading; presented back, it resolves to
    that user up to and including that expiry second, and is refused with
    the 401 [credential_exception] from the next second on. *)
Theorem access_token_lives_seven_days
  (db : Database) (u : UsuarioModel.t) (now_exp now_iat now : datetime) :
  db_wf db -> In u (usuarios db) ->
  exists cs,
    criar_token_acesso now_exp now_iat (SubInt (UsuarioModel.id u)) = Ok (signed cs) /\
    dict_get "exp" cs = Some (JNum (timegm now_exp + 604800)) /\
    dict_get "iat" cs = Some (JNum (timegm now_iat)) /\
    (timegm now <= timegm now_exp + 604800 ->
       get_current_user db now (signed cs) = Ok u) /\
    (timegm now_exp + 604800 < timegm now ->
       get_current_user db now (signed cs) = Raise credential_exception).
Proof.
  intros Hwf Hin.
  exists (issued_claims now_exp now_iat "access_token"
            (timedelta_minutes settings.ACCESS_TOKEN_EXPIRE_MINUTES)
            (SubInt (UsuarioModel.id u))).
  split; [apply _criar_token_ok|].
  split; [cbn [issued_claims dict_get String.eqb Ascii.eqb Bool.eqb];
          rewrite access_token_expiry; reflexivity|].
  split; [reflexivity|]. split.
  - intros Hle. apply issued_token_resolves; [exact Hwf | exact Hin|].
    rewrite access_token_expiry. exact Hle.
  - intros Hlt. apply get_current_user_refuses. apply unauth_invalid.
    unfold signed. eapply fv_expired; [reflexivity|].
    rewrite access_token_expiry. exact Hlt.
Qed.



End TokenLife.

Lemma access_token_lives_seven_days_witness :
  db_wf Demo.db /\ In Demo.ana (usuarios Demo.db) /\
  exists cs,
    criar_token_acesso (K := Demo.keyed_hash) 1000000000 1000000000 (SubInt 1)
    = Ok (signed (K := Demo.keyed_hash) cs) /\
    dict_get "exp" cs = Some (JNum 605800) /\
    get_current_user (K := Demo.keyed_hash) Demo.db 605800999999
      (signed (K := Demo.keyed_hash) cs) = Ok Demo.ana /\
    get_current_user (K := Demo.keyed_hash) Demo.db 605801000000
      (signed (K := Demo.keyed_hash) cs) = Raise credential_exception.
Proof.
  split; [exact demo_db_wf|].
  assert (Hin : In Demo.ana (usuarios Demo.db)) by (simpl; left; reflexivity).
  split; [exact Hin|].
  destruct (access_token_lives_seven_days (K := Demo.keyed_hash) Demo.db Demo.ana
              1000000000 1000000000 605800999999 demo_db_wf Hin)
    as [cs [Hc [He [_ [Hok _]]]]].
  destruct (access_token_lives_seven_days (K := Demo.keyed_hash) Demo.db Demo.ana
              1000000000 1000000000 605801000000 demo_db_wf Hin)
    as [cs' [Hc' [_ [_ [_ Hbad]]]]].
  assert (Heq : cs' = cs).
  { rewrite Hc in Hc'. inversion Hc'. reflexivity. }
  subst cs'. exists cs. split; [exact Hc|]. split; [exact He|].
  split; [apply Hok; discriminate | apply Hbad; reflexivity].
Defined.


(* ===================================================================== *)
(** * Accounts: login, password change, deletion *)
(* ===================================================================== *)

Section Accounts.
Context {K : KeyedHash} {CRIPTO : CryptContext}.

Lemma login_success now_exp now_iat db u senha :
  db_wf db -> In u (usuarios db) ->
  verificar_senha senha (UsuarioModel.senha u) = true ->
  login now_exp now_iat (OAuth2PasswordRequestForm.mk (UsuarioModel.email u) senha) db
  = Ok {| status_code := HTTP_200_OK;
          body := token_content
                    (signed (issued_claims now_exp now_iat "access_token"
                               (timedelta_minutes settings.ACCESS_TOKEN_EXPIRE_MINUTES)
                               (SubInt (UsuarioModel.id u))))
                    "bearer" |}.
Proof.
  intros Hwf Hin Hv. unfold login. simpl OAuth2PasswordRequestForm.username.
  simpl OAuth2PasswordRequestForm.password.
  rewrite (autenticar_known db u senha Hwf Hin), Hv.
  cbv beta iota delta [bind]. unfold criar_token_acesso. rewrite _criar_token_ok.
  reflexivity.
Qed.

Lemma login_failure now_exp now_iat db form_data :
  autenticar db (OAuth2PasswordRequestForm.username form_data)
    (OAuth2PasswordRequestForm.password form_data) = Ok None ->
  login now_exp now_iat form_data db
  = Raise (HTTPException HTTP_400_BAD_REQUEST "Dados de acesso incorretos.").
Proof. intros Ha. unfold login. rewrite Ha. reflexivity. Qed.

(** X11.  On a database that satisfies the schema constraints a login has
    two outcomes only, 400 and 200, and it answers 200 only when a stored
    user has exactly the given e-mail and the given password verifies
    against the stored hash of that user; the token it then returns
    carries the key of that user as subject. *)
Theorem login_needs_valid_credentials
  (now_exp now_iat : datetime) (form_data : OAuth2PasswordRequestForm.t) (db : Database) :
  db_wf db ->
  login now_exp now_iat form_data db
  = Raise (HTTPException HTTP_400_BAD_REQUEST "Dados de acesso incorretos.") \/
  exists u cs,
    In u (usuarios db) /\
    UsuarioModel.email u = OAuth2PasswordRequestForm.username form_data /\
    verificar_senha (OAuth2PasswordRequestForm.password form_data)
      (UsuarioModel.senha u) = true /\
    login now_exp now_iat form_data db
    = Ok {| status_code := HTTP_200_OK; body := token_content (signed cs) "bearer" |} /\
    dict_get "sub" cs = Some (JStr (Py.str_int (UsuarioModel.id u))).
Proof.
  intros Hwf. destruct form_data as [e p]. simpl.
  destruct (usuario_by_email db e) as [|u rest] eqn:Hq.
  - left. apply login_failure. unfold autenticar. simpl. rewrite Hq. reflexivity.
  - assert (Hin : In u (usuario_by_email db e)) by (rewrite Hq; left; reflexivity).
    apply filter_In in Hin. destruct Hin as [Hu He]. apply String.eqb_eq in He. subst e.
    destruct (verificar_senha p (UsuarioModel.senha u)) eqn:Hv.
    + right. eexists u, _. split; [exact Hu|]. split; [reflexivity|].
      split; [exact Hv|]. split; [apply login_success; assumption | reflexivity].
    + left. apply login_failure. simpl.
      rewrite (autenticar_known db u p Hwf Hu), Hv. reflexivity.
Qed.



End Accounts.

Lemma login_needs_valid_credentials_witness :
  db_wf Demo.db /\
  (login (K := Demo.keyed_hash) (CRIPTO := Demo.crypt_context) 1000000000 1000000000
     (OAuth2PasswordRequestForm.mk "ana@x.com" "pw2") Demo.db
   = Raise (HTTPException HTTP_400_BAD_REQUEST "Dados de acesso incorretos.") \/
   exists u cs,
     In u (usuarios Demo.db) /\ UsuarioModel.email u = "ana@x.com" /\
     verificar_senha (CRIPTO := Demo.crypt_context) "pw2" (UsuarioModel.senha u) = true /\
     login (K := Demo.keyed_hash) (CRIPTO := Demo.crypt_context) 1000000000 1000000000
       (OAuth2PasswordRequestForm.mk "ana@x.com" "pw2") Demo.db
     = Ok {| status_code := HTTP_200_OK;
             body := token_content (signed (K := Demo.keyed_hash) cs) "bearer" |} /\
     dict_get "sub" cs = Some (JStr (Py.str_int (UsuarioModel.id u)))).
Proof.
  split; [exact demo_db_wf|].
  exact (login_needs_valid_credentials (K := Demo.keyed_hash) (CRIPTO := Demo.crypt_context)
           1000000000 1000000000 (OAuth2PasswordRequestForm.mk "ana@x.com" "pw2")
           Demo.db demo_db_wf).
Defined.



Lemma filter_filter_implied {A : Type} (p q : A -> bool) (l : list A) :
  (forall x, In x l -> p x = true -> q x = true) ->
  filter p (filter q l) = filter p l.
Proof.
  induction l as [|x l IH]; simpl; intros Himp; [reflexivity|].
  assert (IH' : filter p (filter q l) = filter p l).
  { apply IH. intros y Hy. apply Himp. right. exact Hy. }
  destruct (q x) eqn:Hq; simpl.
  - rewrite IH'. reflexivity.
  - destruct (p x) eqn:Hp; [|exact IH'].
    rewrite (Himp x (or_introl eq_refl) Hp) in Hq. discriminate Hq.
Qed.

Section AccountsGone.
Context {K : KeyedHash} {CRIPTO : CryptContext}.

(** X14.  A PUT on a stored user that asks for the e-mail of another
    stored user is refused by the UNIQUE constraint at the commit; the
    [IntegrityError] is not caught as it is in the signup, so the request
    ends as an internal server error (500, not 406), and the database is
    left as it was. *)
Theorem put_usuario_taken_email_is_500
  (salt : string) (up : UsuarioSchemaUp.t) (u r : UsuarioModel.t) (db : Database) :
  db_wf db -> In u (usuarios db) -> In r (usuarios db) ->
  UsuarioModel.id r <> UsuarioModel.id u ->
  UsuarioSchemaUp.email up = Some (UsuarioModel.email r) ->
  put_usuario salt (UsuarioModel.id u) up db = (db, Raise IntegrityError) /\
  http_status (snd (put_usuario salt (UsuarioModel.id u) up db))
  = HTTP_500_INTERNAL_SERVER_ERROR.
Proof.
  intros Hwf Hu Hr Hne He.
  rewrite (put_usuario_email_taken salt up u r db Hwf Hu Hr Hne He).
  split; reflexivity.
Qed.

(** X15.  After DELETE /usuarios/{id} of a stored user the account is
    gone on that database: GET, PUT and DELETE on its key answer 404, a
    login with its e-mail answers 400 whatever the password, and GET on
    the key of any of its articles answers 404; every other user is still
    returned under its key with the same list of articles, and every
    article of another user is still returned under its key. *)
Theorem usuario_deleted_then_gone (u : UsuarioModel.t) (db : Database) :
  db_wf db -> In u (usuarios db) ->
  let db' := fst (delete_usuario (UsuarioModel.id u) db) in
  get_usuario (UsuarioModel.id u) db'
  = Raise (HTTPException HTTP_404_NOT_FOUND "Usuário não encontrado.") /\
  (forall salt up,
      put_usuario salt (UsuarioModel.id u) up db'
      = (db', Raise (HTTPException HTTP_404_NOT_FOUND "Usuário não encontrado."))) /\
  delete_usuario (UsuarioModel.id u) db'
  = (db', Raise (HTTPException HTTP_404_NOT_FOUND "Usuário não encontrado.")) /\
  (forall now_exp now_iat senha,
      login now_exp now_iat (OAuth2PasswordRequestForm.mk (UsuarioModel.email u) senha) db'
      = Raise (HTTPException HTTP_400_BAD_REQUEST "Dados de acesso incorretos.")) /\
  (forall a, In a (artigos db) -> ArtigoModel.usuario_id a = UsuarioModel.id u ->
             get_artigo (ArtigoModel.id a) db'
             = Raise (HTTPException HTTP_404_NOT_FOUND "Artigo não encontrado.")) /\
  (forall a, In a (artigos db) -> ArtigoModel.usuario_id a <> UsuarioModel.id u ->
             get_artigo (ArtigoModel.id a) db' = Ok a) /\
  (forall v, In v (usuarios db) -> UsuarioModel.id v <> UsuarioModel.id u ->
             get_usuario (UsuarioModel.id v) db' = get_usuario (UsuarioModel.id v) db).
Proof.
  intros Hwf Hin db'.
  assert (Hdb : db' = delete_usuario_row db u).
  { unfold db', delete_usuario. rewrite (usuario_found db u Hwf Hin). reflexivity. }
  assert (Hwf' : db_wf db') by (rewrite Hdb; apply delete_usuario_row_wf; exact Hwf).
  assert (Hno : forall v, In v (usuarios db') -> UsuarioModel.id v <> UsuarioModel.id u).
  { intros v Hv. rewrite Hdb in Hv. apply delete_usuario_row_usuarios in Hv. tauto. }
  split; [apply get_usuario_absent; exact Hno|].
  split; [intros salt up; unfold put_usuario;
          rewrite (usuario_absent db' _ Hno); reflexivity|].
  split; [unfold delete_usuario; rewrite (usuario_absent db' _ Hno); reflexivity|].
  split; [|split; [|split]].
  - intros now_exp now_iat senha. apply login_failure. simpl.
    apply autenticar_unknown. intros v Hv Heq.
    apply (Hno v Hv). f_equal.
    rewrite Hdb in Hv. apply delete_usuario_row_usuarios in Hv. destruct Hv as [Hv _].
    apply (NoDup_map_injective UsuarioModel.email (usuarios db) v u
             (wf_usuario_email db Hwf) Hv Hin Heq).
  - intros a Ha Hown. apply get_artigo_absent. intros b Hb Hid.
    rewrite Hdb in Hb. apply delete_usuario_row_artigos in Hb. destruct Hb as [Hb Hne].
    apply Hne. rewrite <- Hown. f_equal.
    apply (NoDup_map_injective ArtigoModel.id (artigos db) b a
             (wf_artigo_pk db Hwf) Hb Ha Hid).
  - intros a Ha Hown. apply (get_artigo_found db' a Hwf').
    rewrite Hdb. apply delete_usuario_row_artigos. tauto.
  - intros v Hv Hne.
    rewrite (get_usuario_found db v Hwf Hv).
    assert (Hv' : In v (usuarios db')).
    { rewrite Hdb. apply delete_usuario_row_usuarios. tauto. }
    rewrite (get_usuario_found db' v Hwf' Hv'). f_equal. f_equal.
    rewrite Hdb. unfold UsuarioModel_artigos, delete_usuario_row. simpl.
    apply filter_filter_implied. intros a _ Ha. apply Z.eqb_eq in Ha.
    apply negb_true_iff, Z.eqb_neq. congruence.
Qed.

(** Every request keeps the stored passwords in the range of the hasher. *)
Lemma serve_keeps_senha_hashed (r : request) (db : Database) :
  (forall v, In v (usuarios db) ->
             exists salt p, UsuarioModel.senha v = gerar_hash_senha salt p) ->
  forall v, In v (usuarios (fst (serve r db))) ->
            exists salt p, UsuarioModel.senha v = gerar_hash_senha salt p.
Proof.
  intros Hall.
  pose proof (artigo_routes_keep_usuarios r db) as Hart.
  destruct r as [salt usuario|salt j up|j|now auth artigo|now auth j up|now auth j].
  4-6: destruct Hart as [Hu _]; rewrite Hu; exact Hall.
  all: clear Hart; simpl.
  - unfold post_usuario, insert_usuario.
    destruct (existsb _ (usuarios db)); simpl; [exact Hall|].
    intros v Hv. apply in_app_or in Hv. destruct Hv as [Hv|[<-|[]]]; [apply Hall; exact Hv|].
    simpl. eauto.
  - unfold put_usuario.
    destruct (one_or_none (usuario_by_id db j)) as [[u|]|e] eqn:Hq; try exact Hall.
    unfold update_usuario. destruct (existsb _ (usuarios db)); simpl; [exact Hall|].
    intros v Hv. apply replace_row_inv in Hv. destruct Hv as [->|[Hv _]]; [|apply Hall; exact Hv].
    destruct (apply_usuario_update_fields salt up u) as [_ [_ [_ [_ [_ Hs]]]]].
    rewrite Hs. destruct (UsuarioSchemaUp.senha up) as [p|]; [eauto|].
    apply Hall. apply one_or_none_some in Hq.
    assert (Hu : In u (usuario_by_id db j)) by (rewrite Hq; left; reflexivity).
    apply filter_In in Hu. tauto.
  - unfold delete_usuario.
    destruct (one_or_none (usuario_by_id db j)) as [[u|]|e]; simpl; try exact Hall.
    intros v Hv. apply filter_In in Hv. apply Hall. tauto.
Qed.

(** X16.  Whatever requests were served since the tables were created,
    the [senha] of every stored user is a value [gerar_hash_senha]
    returned for some password: no request ever writes anything else
    into that column. *)
Theorem senha_is_always_hashed (rs : list request) (v : UsuarioModel.t) :
  In v (usuarios (run rs empty_db)) ->
  exists salt p, UsuarioModel.senha v = gerar_hash_senha salt p.
Proof.
  revert v.
  apply (run_preserves
           (fun d => forall v, In v (usuarios d) ->
                               exists salt p, UsuarioModel.senha v = gerar_hash_senha salt p)).
  - intros r d. apply serve_keeps_senha_hashed.
  - intros v [].
Qed.

End AccountsGone.

Lemma put_usuario_taken_email_is_500_witness :
  db_wf Demo.db /\
  put_usuario (CRIPTO := Demo.crypt_context) "salt" 2
    (UsuarioSchemaUp.mk None None None (Some "ana@x.com") None None) Demo.db
  = (Demo.db, Raise IntegrityError).
Proof.
  split; [exact demo_db_wf|].
  refine (proj1 (put_usuario_taken_email_is_500 (CRIPTO := Demo.crypt_context) "salt"
                   (UsuarioSchemaUp.mk None None None (Some "ana@x.com") None None)
                   Demo.bia Demo.ana Demo.db demo_db_wf _ _ _ eq_refl)).
  - simpl. right. left. reflexivity.
  - simpl. left. reflexivity.
  - simpl. discriminate.
Defined.

Lemma usuario_deleted_then_gone_witness :
  db_wf Demo.db /\ In Demo.ana (usuarios Demo.db) /\
  get_usuario 1 (fst (delete_usuario 1 Demo.db))
  = Raise (HTTPException HTTP_404_NOT_FOUND "Usuário não encontrado.") /\
  login (K := Demo.keyed_hash) (CRIPTO := Demo.crypt_context) 1000000000 1000000000
    (OAuth2PasswordRequestForm.mk "ana@x.com" "pw1") (fst (delete_usuario 1 Demo.db))
  = Raise (HTTPException HTTP_400_BAD_REQUEST "Dados de acesso incorretos.") /\
  get_artigo 1 (fst (delete_usuario 1 Demo.db))
  = Raise (HTTPException HTTP_404_NOT_FOUND "Artigo não encontrado.").
Proof.
  split; [exact demo_db_wf|].
  assert (Hin : In Demo.ana (usuarios Demo.db)) by (simpl; left; reflexivity).
  split; [exact Hin|].
  pose proof (usuario_deleted_then_gone (K := Demo.keyed_hash)
                (CRIPTO := Demo.crypt_context) Demo.ana Demo.db demo_db_wf Hin)
    as [Hg [_ [_ [Hl [Ha _]]]]].
  split; [exact Hg|]. split; [apply Hl|].
  apply (Ha Demo.artigo_ana); [simpl; left; reflexivity | reflexivity].
Defined.

Lemma senha_is_always_hashed_witness :
  In (UsuarioModel.mk 1 (Some "A") (Some "X") "a@x.com" "$2b$pw1" (Some false))
     (usuarios (run (K := Demo.keyed_hash) (CRIPTO := Demo.crypt_context)
                  [POST_usuarios_signup "salt"
                     (UsuarioSchemaCreate.mk None "A" "X" "a@x.com" false "pw1")]
                  empty_db)) /\
  exists salt p, "$2b$pw1" = gerar_hash_senha (CRIPTO := Demo.crypt_context) salt p.
Proof.
  assert (Hin : In (UsuarioModel.mk 1 (Some "A") (Some "X") "a@x.com" "$2b$pw1" (Some false))
     (usuarios (run (K := Demo.keyed_hash) (CRIPTO := Demo.crypt_context)
                  [POST_usuarios_signup "salt"
                     (UsuarioSchemaCreate.mk None "A" "X" "a@x.com" false "pw1")]
                  empty_db))) by (simpl; left; reflexivity).
  split; [exact Hin|].
  exact (senha_is_always_hashed (K := Demo.keyed_hash) (CRIPTO := Demo.crypt_context)
           _ _ Hin).
Defined.

(* ===================================================================== *)
(** * Invariants of every run *)
(* ===================================================================== *)

Section RunInvariants.
Context {K : KeyedHash} {CRIPTO : CryptContext}.

(** X17.  Whatever requests were served since the tables were created:
    no two stored users share a key or an e-mail, no two stored articles
    share a key, every stored key is below the next value of its
    sequence, and the [usuario_id] of every stored article is the key of
    a stored user. *)
Theorem constraints_hold_after_any_requests (rs : list request) :
  let db := run rs empty_db in
  NoDup (map UsuarioModel.id (usuarios db)) /\
  NoDup (map UsuarioModel.email (usuarios db)) /\
  NoDup (map ArtigoModel.id (artigos db)) /\
  (forall u, In u (usuarios db) -> UsuarioModel.id u < usuarios_id_seq db) /\
  (forall a, In a (artigos db) -> ArtigoModel.id a < artigos_id_seq db) /\
  (forall a, In a (artigos db) ->
             exists u, In u (usuarios db) /\ UsuarioModel.id u = ArtigoModel.usuario_id a).
Proof.
  cbv zeta. destruct (reachable_wf rs) as [Hpk Hem Hseq Hapk Haseq Hfk].
  repeat split; try assumption.
  intros a Ha. apply Hfk in Ha. apply in_map_iff in Ha. destruct Ha as [u [Hu Hin]].
  exists u. split; assumption.
Qed.

Lemma put_artigo_keeps_filled i up u db :
  (forall a, In a (artigos db) ->
             ArtigoModel.descricao a <> None /\ ArtigoModel.url_fonte a <> None) ->
  forall a, In a (artigos (fst (put_artigo i up u db))) ->
            ArtigoModel.descricao a <> None /\ ArtigoModel.url_fonte a <> None.
Proof.
  intros Hall. unfold put_artigo.
  destruct (one_or_none (artigo_by_id db i)) as [[b|]|e] eqn:Hq; try exact Hall.
  destruct (negb (UsuarioModel.id u =? ArtigoModel.usuario_id b)); [exact Hall|].
  simpl. intros a Ha. apply replace_row_inv in Ha.
  destruct Ha as [->|[Ha _]]; [|apply Hall; exact Ha].
  apply one_or_none_some in Hq.
  assert (Hb : In b (artigo_by_id db i)) by (rewrite Hq; left; reflexivity).
  apply filter_In in Hb. destruct Hb as [Hb _]. destruct (Hall b Hb) as [Hd Hl].
  destruct (apply_artigo_update_fields up b) as [_ [_ [_ [Hd' Hl']]]].
  rewrite Hd', Hl'. split.
  - destruct (ArtigoSchemaUp.descricao up) as [[|c d]|]; [exact Hd | discriminate | exact Hd].
  - destruct (ArtigoSchemaUp.url_fonte up); [discriminate | exact Hl].
Qed.

Lemma serve_keeps_filled (r : request) (db : Database) :
  ((forall v, In v (usuarios db) ->
              UsuarioModel.nome v <> None /\ UsuarioModel.sobrenome v <> None /\
              UsuarioModel.admin v <> None) /\
   (forall a, In a (artigos db) ->
              ArtigoModel.descricao a <> None /\ ArtigoModel.url_fonte a <> None)) ->
  (forall v, In v (usuarios (fst (serve r db))) ->
             UsuarioModel.nome v <> None /\ UsuarioModel.sobrenome v <> None /\
             UsuarioModel.admin v <> None) /\
  (forall a, In a (artigos (fst (serve r db))) ->
             ArtigoModel.descricao a <> None /\ ArtigoModel.url_fonte a <> None).
Proof.
  intros [HU HA].
  pose proof (artigo_routes_keep_usuarios r db) as Hart.
  destruct r as [salt usuario|salt j up|j|now auth artigo|now auth j up|now auth j].
  4-6: destruct Hart as [Hu _]; split; [rewrite Hu; exact HU|]; simpl.
  1-3: clear Hart; cbn [serve].
  - split; [|rewrite (proj1 (post_usuario_frame salt usuario db)); exact HA].
    simpl. unfold post_usuario, insert_usuario.
    destruct (existsb _ (usuarios db)); simpl; [exact HU|].
    intros v Hv. apply in_app_or in Hv. destruct Hv as [Hv|[<-|[]]]; [apply HU; exact Hv|].
    simpl. repeat split; discriminate.
  - split; [|rewrite (proj1 (put_usuario_frame salt j up db)); exact HA].
    simpl. unfold put_usuario.
    destruct (one_or_none (usuario_by_id db j)) as [[u|]|e] eqn:Hq; try exact HU.
    unfold update_usuario. destruct (existsb _ (usuarios db)); simpl; [exact HU|].
    intros v Hv. apply replace_row_inv in Hv. destruct Hv as [->|[Hv _]]; [|apply HU; exact Hv].
    apply one_or_none_some in Hq.
    assert (Hu : In u (usuario_by_id db j)) by (rewrite Hq; left; reflexivity).
    apply filter_In in Hu. destruct Hu as [Hu _]. destruct (HU u Hu) as [Hn [Hs Had]].
    destruct (apply_usuario_update_fields salt up u) as [_ [Hn' [Hs' [_ [Had' _]]]]].
    rewrite Hn', Hs', Had'.
    destruct (UsuarioSchemaUp.nome up), (UsuarioSchemaUp.sobrenome up),
      (UsuarioSchemaUp.admin up); repeat split; assumption || discriminate.
  - simpl. unfold delete_usuario.
    destruct (one_or_none (usuario_by_id db j)) as [[u|]|e]; simpl;
      try (split; assumption).
    split.
    + intros v Hv. apply filter_In in Hv. apply HU. tauto.
    + intros a Ha. apply filter_In in Ha. apply HA. tauto.
  - apply (Depends_preserves
             (fun d => forall a, In a (artigos d) ->
                       ArtigoModel.descricao a <> None /\ ArtigoModel.url_fonte a <> None));
      [|exact HA].
    intros u d Hd. unfold post_artigo, insert_artigo.
    destruct (existsb _ (artigos d) || _); simpl; [exact Hd|].
    intros a Ha. apply in_app_or in Ha. destruct Ha as [Ha|[<-|[]]]; [apply Hd; exact Ha|].
    simpl. split; discriminate.
  - apply (Depends_preserves
             (fun d => forall a, In a (artigos d) ->
                       ArtigoModel.descricao a <> None /\ ArtigoModel.url_fonte a <> None));
      [|exact HA].
    intros u d Hd. apply put_artigo_keeps_filled. exact Hd.
  - apply (Depends_preserves
             (fun d => forall a, In a (artigos d) ->
                       ArtigoModel.descricao a <> None /\ ArtigoModel.url_fonte a <> None));
      [|exact HA].
    intros u d Hd. unfold delete_artigo.
    destruct (one_or_none (artigo_by_id d j)) as [[b|]|e]; try exact Hd.
    destruct (negb (ArtigoModel.usuario_id b =? UsuarioModel.id u)); [exact Hd|].
    simpl. intros a Ha. apply filter_In in Ha. apply Hd. tauto.
Qed.

(** X18.  No request writes a null: whatever requests were served since
    the tables were created, every stored user has a [nome], a
    [sobrenome] and an [admin] flag, and every stored article has a
    [descricao] and a [url_fonte], although the columns are nullable. *)
Theorem no_request_stores_a_null (rs : list request) :
  (forall v, In v (usuarios (run rs empty_db)) ->
             UsuarioModel.nome v <> None /\ UsuarioModel.sobrenome v <> None /\
             UsuarioModel.admin v <> None) /\
  (forall a, In a (artigos (run rs empty_db)) ->
             ArtigoModel.descricao a <> None /\ ArtigoModel.url_fonte a <> None).
Proof.
  apply (run_preserves
           (fun d => (forall v, In v (usuarios d) ->
                                UsuarioModel.nome v <> None /\
                                UsuarioModel.sobrenome v <> None /\
                                UsuarioModel.admin v <> None) /\
                     (forall a, In a (artigos d) ->
                                ArtigoModel.descricao a <> None /\
                                ArtigoModel.url_fonte a <> None))).
  - intros r d. apply serve_keeps_filled.
  - split; intros x [].
Qed.

End RunInvariants.
